(** * modules/video_capture.py: DummyCamera and VideoCapturer

  A shallow embedding of the camera wrapper of Deep-Live-Cam.  The Python
  objects become records, the methods become computations in a small
  state-and-exception monad, and the two external collaborators (the cv2
  capture library and the pygrabber device lister) become an interface
  [CaptureLib] over which every definition is parametric. *)

From Stdlib Require Import ZArith List String Bool Lia DecimalString.
From Stdlib.Strings Require Import Byte.
Import ListNotations.
Open Scope string_scope.
Open Scope Z_scope.

Set Implicit Arguments.

(** ** Python values used by the module *)

(** Exceptions derived from [Exception], the only ones [except Exception]
  catches.  [ValueError] is what [__init__] and [np.zeros] raise,
  [ArrayMemoryError] is numpy's [MemoryError] for an array of the given
  shape that cannot be allocated, [AttributeError] is what a method call on
  [None] raises, and [OtherException] stands for whatever cv2 or a callback
  raises. *)
Inductive PyExc : Type :=
  | ValueError (msg : string)
  | ArrayMemoryError (shape : Z * Z * Z)
  | AttributeError (msg : string)
  | OtherException (name msg : string).

(** [numpy.ndarray] of dtype uint8 with a three-dimensional shape: the shape
  and the row-major bytes. *)
Record ndarray : Type := mk_ndarray {
  shape : Z * Z * Z;
  data : list byte
}.

(** [str(n)] for a Python int. *)
Definition str_int (n : Z) : string := NilZero.string_of_int (Z.to_int n).

(** cv2's [VideoCaptureAPIs] members the module names. *)
Inductive Backend : Type := CAP_ANY | CAP_DSHOW | CAP_AVFOUNDATION.

(** cv2's [VideoCaptureProperties] members the module names. *)
Inductive CapProp : Type :=
  CAP_PROP_FRAME_WIDTH | CAP_PROP_FRAME_HEIGHT | CAP_PROP_FPS.

Definition Backend_eqb (a b : Backend) : bool :=
  match a, b with
  | CAP_ANY, CAP_ANY | CAP_DSHOW, CAP_DSHOW
  | CAP_AVFOUNDATION, CAP_AVFOUNDATION => true
  | _, _ => false
  end.

(** ** The external collaborators

  [World] is whatever lies outside the capturer (the operating system, the
  devices, the state the callbacks work on).  A [Handle] is a
  [cv2.VideoCapture] object with its own state.  Constructing one may raise;
  its methods return.  [vc_release_closed] is cv2's contract that a released
  capture reports not opened.  [NPY_MAX_INTP] is the largest [npy_intp] of
  the numpy build (2^63 - 1 on a 64-bit one) and [can_allocate n] tells
  whether the host gives numpy [n] zeroed bytes. *)
Class CaptureLib : Type := {
  World : Type;
  Handle : Type;
  platform_system : string;
  get_input_devices : World -> list string;
  cv2_VideoCapture : Z -> Backend -> World -> World * (PyExc + Handle);
  vc_isOpened : Handle -> bool;
  vc_read : Handle -> Handle * (bool * option ndarray);
  vc_set : Handle -> CapProp -> Z -> Handle * bool;
  vc_release : Handle -> Handle;
  vc_release_closed : forall h, vc_isOpened (vc_release h) = false;
  NPY_MAX_INTP : Z;
  can_allocate : Z -> bool
}.

(** ** [np.zeros] *)

Section Numpy.

Context {L : CaptureLib}.

(** Whether a Python int converts to [npy_intp]. *)
Definition fits_intp (d : Z) : bool :=
  (- NPY_MAX_INTP - 1 <=? d) && (d <=? NPY_MAX_INTP).

(** numpy's walk over the dimensions of a new array: a zero dimension is
  skipped, a negative one is refused, and the byte count, which starts at
  the item size, must stay within [npy_intp]. *)
Fixpoint check_dims (nbytes : Z) (dims : list Z) : PyExc + Z :=
  match dims with
  | [] => inr nbytes
  | d :: rest =>
      if d =? 0 then check_dims nbytes rest
      else if d <? 0
      then inl (ValueError "negative dimensions are not allowed")
      else if NPY_MAX_INTP <? nbytes * d
      then inl (ValueError
                  ("array is too big; `arr.size * arr.dtype.itemsize` "
                   ++ "is larger than the maximum possible size."))
      else check_dims (nbytes * d) rest
  end.

(** [np.zeros((d0, d1, d2), dtype=np.uint8)]: the dimensions are converted
  to [npy_intp], checked by [check_dims] with item size 1, and the bytes are
  allocated (one byte for an empty array); each step can refuse. *)
Definition np_zeros (shp : Z * Z * Z) : PyExc + ndarray :=
  let '(d0, d1, d2) := shp in
  if negb (fits_intp d0 && fits_intp d1 && fits_intp d2)
  then inl (ValueError "Maximum allowed dimension exceeded")
  else
    match check_dims 1 [d0; d1; d2] with
    | inl e => inl e
    | inr nbytes =>
        let size := d0 * d1 * d2 in
        if can_allocate (if size =? 0 then 1 else nbytes)
        then inr (mk_ndarray shp (repeat x00 (Z.to_nat size)))
        else inl (ArrayMemoryError shp)
    end.

End Numpy.

(** ** class DummyCamera *)

Module DummyCamera.

Record t : Type := mk {
  width : Z;
  height : Z;
  is_open : bool
}.

(** [__init__(self, width=960, height=540)] *)
Definition init (width height : Z) : t := mk width height true.

Definition default : t := init 960 540.

Definition isOpened (self : t) : bool := is_open self.

(** [read]: a fresh black frame each call; the object itself is not
  changed. *)
Definition read {L : CaptureLib} (self : t) : PyExc + (bool * ndarray) :=
  match np_zeros (height self, width self, 3) with
  | inl e => inl e
  | inr frame => inr (true, frame)
  end.

Definition set (self : t) (prop : CapProp) (value : Z) : bool := true.

Definition release (self : t) : t := mk (width self) (height self) false.

End DummyCamera.

(** The list [capture_methods] that [start] builds, per platform. *)
Definition capture_methods_windows (device_index : Z) : list (Z * Backend) :=
  [ (device_index, CAP_DSHOW);
  (device_index, CAP_ANY);
  (-1, CAP_ANY);
  (0, CAP_ANY) ].

Definition capture_methods_other (device_index : Z) : list (Z * Backend) :=
  [ (device_index, CAP_ANY);
  (device_index, CAP_AVFOUNDATION);
  (0, CAP_ANY);
  (0, CAP_AVFOUNDATION) ].

Definition capture_methods (platform : string) (device_index : Z)
  : list (Z * Backend) :=
  if (platform =? "Windows")%string
  then capture_methods_windows device_index
  else capture_methods_other device_index.

Section Capturer.

Context {L : CaptureLib}.

(** What [self.cap] can hold. *)
Inductive Cap : Type :=
  | Real (h : Handle)
  | Dummy (d : DummyCamera.t).

(** The object registered as frame callback.  [cb_truth] is its truth
  value, [bool(callback)], which [read] tests and which may depend on the
  world ([True] for every plain function, [False] for a callable with a
  false [__bool__] or an empty [__len__]).  [cb_call] is the call itself:
  it receives the frame, may change the world, and returns or raises.  It
  does not call back into the capturer.  The call is given the frame as a
  value: what a callback writes into the array it is handed is not
  represented, so nothing below speaks about the content of a frame after
  a callback has run on it. *)
Record Callback : Type := mkCallback {
  cb_truth : World -> bool;
  cb_call : option ndarray -> World -> World * (PyExc + unit)
}.

(** Method dispatch on the object held in [self.cap]. *)
Definition cap_isOpened (c : Cap) : bool :=
  match c with
  | Real h => vc_isOpened h
  | Dummy d => DummyCamera.isOpened d
  end.

Definition cap_read (c : Cap) : PyExc + (Cap * (bool * option ndarray)) :=
  match c with
  | Real h => let '(h', r) := vc_read h in inr (Real h', r)
  | Dummy d =>
      match DummyCamera.read d with
      | inl e => inl e
      | inr (ret, frame) => inr (Dummy d, (ret, Some frame))
      end
  end.

Definition cap_set (c : Cap) (prop : CapProp) (value : Z) : Cap * bool :=
  match c with
  | Real h => let '(h', r) := vc_set h prop value in (Real h', r)
  | Dummy d => (Dummy d, DummyCamera.set d prop value)
  end.

Definition cap_release (c : Cap) : Cap :=
  match c with
  | Real h => Real (vc_release h)
  | Dummy d => Dummy (DummyCamera.release d)
  end.

(** The attributes of a [VideoCapturer].  [_frame_ready] is the flag of the
  [threading.Event], never set; [graph] is present on Windows only. *)
Record VideoCapturer : Type := mkVideoCapturer {
  device_index : Z;
  frame_callback : option Callback;
  _current_frame : option ndarray;
  _frame_ready : bool;
  is_running : bool;
  cap : option Cap;
  graph : bool
}.

(** The calls the capturer makes, in the order they are made: the cv2
  constructor, the methods of the object in [self.cap] (with that object
  as it was at the call), and the callback. *)
Inductive Event : Type :=
  | EvVideoCapture (dev_id : Z) (backend : Backend)
  | EvIsOpened (c : Cap)
  | EvSet (c : Cap) (prop : CapProp) (value : Z)
  | EvRead (c : Cap)
  | EvRelease (c : Cap)
  | EvCallback (cb : Callback) (frame : option ndarray).

Record State : Type := mkState {
  self : VideoCapturer;
  world : World;
  trace : list Event
}.

(** ** The monad: state passing with exceptions.  A raised exception keeps
  the state reached so far, as in Python. *)
Definition M (A : Type) : Type := State -> State * (PyExc + A).

Definition ret {A} (a : A) : M A := fun s => (s, inr a).

Definition raise {A} (e : PyExc) : M A := fun s => (s, inl e).

Definition bind {A B} (m : M A) (k : A -> M B) : M B :=
  fun s =>
    match m s with
    | (s', inr a) => k a s'
    | (s', inl e) => (s', inl e)
    end.

(** [try: m  except Exception as e: handler e] *)
Definition try_except {A} (m : M A) (handler : PyExc -> M A) : M A :=
  fun s =>
    match m s with
    | (s', inr a) => (s', inr a)
    | (s', inl e) => handler e s'
    end.

End Capturer.

Declare Scope py_scope.
Delimit Scope py_scope with py.
Notation "x <- m ;; k" := (bind m (fun x => k))
  (at level 100, m at next level, right associativity) : py_scope.
Notation "m ;; k" := (bind m (fun _ => k))
  (at level 100, right associativity) : py_scope.

Open Scope py_scope.

(** ** class VideoCapturer *)

Section Methods.

Context {L : CaptureLib}.

(** Attribute assignment [self.x = v]. *)
Definition with_cap (c : option Cap) (o : VideoCapturer) : VideoCapturer :=
  mkVideoCapturer (device_index o) (frame_callback o) (_current_frame o)
    (_frame_ready o) (is_running o) c (graph o).

Definition with_is_running (b : bool) (o : VideoCapturer) : VideoCapturer :=
  mkVideoCapturer (device_index o) (frame_callback o) (_current_frame o)
    (_frame_ready o) b (cap o) (graph o).

Definition with_current_frame (f : option ndarray) (o : VideoCapturer)
  : VideoCapturer :=
  mkVideoCapturer (device_index o) (frame_callback o) f
    (_frame_ready o) (is_running o) (cap o) (graph o).

Definition with_frame_callback (cb : option Callback) (o : VideoCapturer)
  : VideoCapturer :=
  mkVideoCapturer (device_index o) cb (_current_frame o)
    (_frame_ready o) (is_running o) (cap o) (graph o).

Definition get_self : M VideoCapturer := fun s => (s, inr (self s)).

Definition modify_self (f : VideoCapturer -> VideoCapturer) : M unit :=
  fun s => (mkState (f (self s)) (world s) (trace s), inr tt).

Definition emit (e : Event) : M unit :=
  fun s => (mkState (self s) (world s) (trace s ++ [e]), inr tt).

(** [cv2.VideoCapture(dev_id, backend)] *)
Definition call_VideoCapture (dev_id : Z) (backend : Backend) : M Handle :=
  fun s =>
    let '(w', r) := cv2_VideoCapture dev_id backend (world s) in
    (mkState (self s) w' (trace s ++ [EvVideoCapture dev_id backend]), r).

(** [callback(frame)] *)
Definition call_callback (cb : Callback) (frame : option ndarray) : M unit :=
  fun s =>
    let '(w', r) := cb_call cb frame (world s) in
    (mkState (self s) w' (trace s ++ [EvCallback cb frame]), r).

(** [bool(callback)], as [if self.frame_callback:] evaluates it. *)
Definition truth_value (cb : Callback) : M bool :=
  fun s => (s, inr (cb_truth cb (world s))).

Definition NoneType_has_no (attr : string) : PyExc :=
  AttributeError ("'NoneType' object has no attribute '" ++ attr ++ "'").

(** [self.cap.isOpened()] *)
Definition self_cap_isOpened : M bool :=
  o <- get_self ;;
  match cap o with
  | None => raise (NoneType_has_no "isOpened")
  | Some c => emit (EvIsOpened c) ;; ret (cap_isOpened c)
  end.

(** [self.cap.release()]: the object held in [self.cap] is the one changed. *)
Definition self_cap_release : M unit :=
  o <- get_self ;;
  match cap o with
  | None => raise (NoneType_has_no "release")
  | Some c => emit (EvRelease c) ;; modify_self (with_cap (Some (cap_release c)))
  end.

(** [self.cap.set(prop, value)] *)
Definition self_cap_set (prop : CapProp) (value : Z) : M bool :=
  o <- get_self ;;
  match cap o with
  | None => raise (NoneType_has_no "set")
  | Some c =>
      emit (EvSet c prop value) ;;
      let '(c', r) := cap_set c prop value in
      modify_self (with_cap (Some c')) ;;
      ret r
  end.

(** [self.cap.read()] *)
Definition self_cap_read : M (bool * option ndarray) :=
  o <- get_self ;;
  match cap o with
  | None => raise (NoneType_has_no "read")
  | Some c =>
      emit (EvRead c) ;;
      match cap_read c with
      | inl e => raise e
      | inr (c', r) => modify_self (with_cap (Some c')) ;; ret r
      end
  end.

(** [VideoCapturer.__init__(self, device_index)]: the object, or the
    [ValueError] of the Windows device check. *)
Definition init (device_index : Z) (w : World) : PyExc + VideoCapturer :=
  let self := mkVideoCapturer device_index None None false false None false in
  if (platform_system =? "Windows")%string then
    let self := mkVideoCapturer device_index None None false false None true in
    let devices := get_input_devices w in
    if device_index >=? Z.of_nat (List.length devices) then
      inl (ValueError ("Invalid device index " ++ str_int device_index
                       ++ ". Available devices: "
                       ++ str_int (Z.of_nat (List.length devices))))
    else inr self
  else inr self.

(** One turn of the [for dev_id, backend in capture_methods] loop of
    [start]; [true] is [break], [false] goes on to the next pair. *)
Definition probe (dev_id : Z) (backend : Backend) : M bool :=
  try_except
    (h <- call_VideoCapture dev_id backend ;;
     modify_self (with_cap (Some (Real h))) ;;
     opened <- self_cap_isOpened ;;
     if opened then ret true
     else (self_cap_release ;; ret false))
    (fun _ => ret false).

Fixpoint probe_loop (methods : list (Z * Backend)) : M unit :=
  match methods with
  | [] => ret tt
  | (dev_id, backend) :: rest =>
      brk <- probe dev_id backend ;;
      if brk then ret tt else probe_loop rest
  end.

(** [not self.cap or not self.cap.isOpened()] *)
Definition no_camera : M bool :=
  o <- get_self ;;
  match cap o with
  | None => ret true
  | Some _ => opened <- self_cap_isOpened ;; ret (negb opened)
  end.

(** [start(self, width=960, height=540, fps=60)]; the diagnostic prints are
    left out. *)
Definition start (width height fps : Z) : M bool :=
  try_except
    (o <- get_self ;;
     probe_loop (capture_methods platform_system (device_index o)) ;;
     none <- no_camera ;;
     (if none
      then modify_self (with_cap (Some (Dummy (DummyCamera.init width height))))
      else ret tt) ;;
     self_cap_set CAP_PROP_FRAME_WIDTH width ;;
     self_cap_set CAP_PROP_FRAME_HEIGHT height ;;
     self_cap_set CAP_PROP_FPS fps ;;
     modify_self (with_is_running true) ;;
     ret true)
    (fun _ =>
       o <- get_self ;;
       match cap o with
       | Some _ => self_cap_release
       | None => ret tt
       end ;;
       ret false).

Definition is_None {A} (x : option A) : bool :=
  match x with None => true | Some _ => false end.

(** [read(self)] *)
Definition read : M (bool * option ndarray) :=
  o <- get_self ;;
  if negb (is_running o) || is_None (cap o) then ret (false, None)
  else
    r <- self_cap_read ;;
    let '(ok, frame) := r in
    if ok then
      modify_self (with_current_frame frame) ;;
      o <- get_self ;;
      match frame_callback o with
      | Some cb =>
          truthy <- truth_value cb ;;
          if truthy then call_callback cb frame else ret tt
      | None => ret tt
      end ;;
      ret (true, frame)
    else ret (false, None).

(** [release(self)] *)
Definition release : M unit :=
  o <- get_self ;;
  if is_running o && negb (is_None (cap o)) then
    self_cap_release ;;
    modify_self (with_is_running false) ;;
    modify_self (with_cap None)
  else ret tt.

(** [set_frame_callback(self, callback)] *)
Definition set_frame_callback (callback : Callback) : M unit :=
  modify_self (with_frame_callback (Some callback)).

End Methods.

(** ** Sequences of public operations, and the predicates the properties
    are stated with *)

Section Reachable.

Context {L : CaptureLib}.

Inductive Op : Type :=
| OpStart (width height fps : Z)
| OpRead
| OpRelease
| OpSetFrameCallback (callback : Callback).

(** The state an operation leaves behind, whether it returned or raised. *)
Definition exec (o : Op) (s : State) : State :=
  match o with
  | OpStart width height fps => fst (start width height fps s)
  | OpRead => fst (read s)
  | OpRelease => fst (release s)
  | OpSetFrameCallback cb => fst (set_frame_callback cb s)
  end.

(** States of a capturer that was constructed and then used through its
    methods only; between two calls the world may move on by itself. *)
Inductive reachable : State -> Prop :=
| reach_init idx w o :
    init idx w = inr o -> reachable (mkState o w [])
| reach_exec s o :
    reachable s -> reachable (exec o s)
| reach_world s w' :
    reachable s -> reachable (mkState (self s) w' (trace s)).

(** The state after a list of operations, first to last. *)
Definition exec_all (ops : list Op) (s : State) : State :=
  fold_left (fun s o => exec o s) ops s.

Definition is_start (o : Op) : bool :=
  match o with OpStart _ _ _ => true | _ => false end.

(** What the probe loop can do to the capturer: it leaves every attribute
    but [cap] alone, and [cap] is either kept or set to a capture. *)
Definition cap_update (o o' : VideoCapturer) : Prop :=
  (cap o' = cap o \/ exists h, cap o' = Some (Real h)) /\
  o' = with_cap (cap o') o.

(** [self.cap] is [None] or an object that reports not opened. *)
Definition closed (oc : option Cap) : bool :=
  match oc with
  | None => true
  | Some c => negb (cap_isOpened c)
  end.

(** The object [start] goes on with after the loop: the capture the loop
    left in [self.cap] if it is opened, a new [DummyCamera] otherwise. *)
Definition chosen_cap (oc : option Cap) (width height : Z) : Cap :=
  match oc with
  | Some c =>
      if cap_isOpened c then c else Dummy (DummyCamera.init width height)
  | None => Dummy (DummyCamera.init width height)
  end.

(** The same object after the three [set] calls of [start]. *)
Definition configured (c : Cap) (width height fps : Z) : Cap :=
  let c1 := fst (cap_set c CAP_PROP_FRAME_WIDTH width) in
  let c2 := fst (cap_set c1 CAP_PROP_FRAME_HEIGHT height) in
  fst (cap_set c2 CAP_PROP_FPS fps).

(** The frame a [DummyCamera] hands out when numpy can build it. *)
Definition black_frame (width height : Z) : ndarray :=
  mk_ndarray (height, width, 3) (repeat x00 (Z.to_nat (height * width * 3))).

(** The sizes for which numpy builds that frame: both non-negative, the
    byte count within [npy_intp] (a zero dimension counting as 1 there), and
    the bytes (one byte for an empty frame) to be had from the host. *)
Definition frame_fits (width height : Z) : Prop :=
  0 <= width /\ 0 <= height
  /\ Z.max 1 height * Z.max 1 width * 3 <= NPY_MAX_INTP
  /\ can_allocate (Z.max 1 (height * width * 3)) = true.

(** The registered callback, if there is one, returns whenever it is
    called. *)
Definition callback_returns (o : VideoCapturer) : Prop :=
  forall cb, frame_callback o = Some cb ->
  forall frame w, cb_truth cb w = true -> snd (cb_call cb frame w) = inr tt.


(** The invariant of the capturer: running implies a handle is held. *)
Definition running_has_handle (o : VideoCapturer) : bool :=
  implb (is_running o) (negb (is_None (cap o))).

(** The state after [n] more calls of [read]. *)
Fixpoint after_reads (n : nat) (s : State) : State :=
  match n with
  | O => s
  | S n' => after_reads n' (fst (read s))
  end.

(** Every probe of the list fails when tried in order from world [w]: the
    constructor raises, or the capture it returns is not opened. *)
Fixpoint all_probes_fail (methods : list (Z * Backend)) (w : World) : bool :=
  match methods with
  | [] => true
  | (dev_id, backend) :: rest =>
      let '(w', r) := cv2_VideoCapture dev_id backend w in
      match r with
      | inl _ => true
      | inr h => negb (vc_isOpened h)
      end && all_probes_fail rest w'
  end.

(** How often the callback was called in a trace. *)
Definition is_callback_event (e : Event) : bool :=
  match e with EvCallback _ _ => true | _ => false end.

Definition callback_calls (t : list Event) : nat :=
  List.length (filter is_callback_event t).

End Reachable.

(** ** The shape the specification gives to the probe list *)

Definition is_generic (b : Backend) : bool := Backend_eqb b CAP_ANY.

(** Specificity of a backend hint: a named native backend is more specific
    than the automatic choice. *)
Definition specificity (b : Backend) : nat :=
  if is_generic b then 0%nat else 1%nat.

Fixpoint decreasing_specificity (bs : list Backend) : bool :=
  match bs with
  | b :: ((b' :: _) as rest) =>
      (specificity b' <=? specificity b)%nat && decreasing_specificity rest
  | _ => true
  end.

(** The shape in the specification's words: the requested index with a
    native backend, the same index with the generic backend, then the
    sentinel -1 and index 0, the backends never getting more specific. *)
Definition universal_shape (device_index : Z) (methods : list (Z * Backend))
  : bool :=
  match methods with
  | (i1, b1) :: (i2, b2) :: (i3, _) :: (i4, _) :: [] =>
      (i1 =? device_index) && negb (is_generic b1)
      && (i2 =? device_index) && is_generic b2
      && (i3 =? -1) && (i4 =? 0)
      && decreasing_specificity (map snd methods)
  | _ => false
  end.

(** ** A simulated host, for running the definitions *)

Module Sim.

(** A capture object that plays back a fixed list of read results. *)
Record SimHandle : Type := mkSim {
  sim_opened : bool;
  sim_feed : list (bool * option ndarray)
}.

Definition sim_read (h : SimHandle) : SimHandle * (bool * option ndarray) :=
  match sim_feed h with
  | [] => (h, (false, None))
  | r :: rest => (mkSim (sim_opened h) rest, r)
  end.

Definition sim_release (h : SimHandle) : SimHandle :=
  mkSim false (sim_feed h).

(** The world counts the calls made to it; numpy is a 64-bit build and
    the host hands out up to 64 bytes at a time. *)
Definition lib (platform : string) (devices : list string)
    (open : Z -> Backend -> PyExc + SimHandle) : CaptureLib :=
  {| World := nat;
     Handle := SimHandle;
     platform_system := platform;
     get_input_devices := fun _ => devices;
     cv2_VideoCapture := fun dev_id backend w => (S w, open dev_id backend);
     vc_isOpened := sim_opened;
     vc_read := sim_read;
     vc_set := fun h _ _ => (h, true);
     vc_release := sim_release;
     vc_release_closed := fun _ => eq_refl;
     NPY_MAX_INTP := 9223372036854775807;
     can_allocate := fun n => n <=? 64 |}.

Definition no_device (dev_id : Z) (backend : Backend) : PyExc + SimHandle :=
  if dev_id =? 0 then inr (mkSim false [])
  else inl (OtherException "cv2.error" "can't open camera by index").

Definition pixel : ndarray := mk_ndarray (1, 1, 3) [x10; x20; x30].

(** Device 0 answers to the generic backend only and delivers one frame,
    then one failed read. *)
Definition one_camera (dev_id : Z) (backend : Backend) : PyExc + SimHandle :=
  if (dev_id =? 0) && is_generic backend
  then inr (mkSim true [(true, Some pixel); (false, None)])
  else no_device dev_id backend.

Definition windows_two_devices : CaptureLib :=
  lib "Windows" ["Integrated Camera"; "OBS Virtual Camera"] one_camera.

Definition mac_no_camera : CaptureLib := lib "Darwin" [] no_device.

Definition mac_one_camera : CaptureLib := lib "Darwin" [] one_camera.

(** Callbacks on the simulated world. *)
Definition counting_callback {L : CaptureLib} (bump : World -> World)
  : Callback := mkCallback (fun _ => true) (fun _ w => (bump w, inr tt)).

Definition raising_callback {L : CaptureLib} : Callback :=
  mkCallback (fun _ => true)
    (fun _ w => (w, inl (OtherException "RuntimeError" "callback failed"))).

(** A callable object whose [__bool__] answers [False]. *)
Definition falsy_callback {L : CaptureLib} (bump : World -> World)
  : Callback := mkCallback (fun _ => false) (fun _ w => (bump w, inr tt)).

(** A capturer as [__init__] leaves it off Windows, in a new world. *)
Definition fresh {L : CaptureLib} (idx : Z) (w : World) : State :=
  mkState (mkVideoCapturer idx None None false false None false) w [].

(** The same capturer started with a 3 by 2 frame size. *)
Definition started {L : CaptureLib} (idx : Z) (w : World) : State :=
  exec (OpStart 3 2 60) (fresh idx w).

(** The capture that [no_device] returns for index 0: never opened. *)
Definition dead_capture : @Cap mac_no_camera :=
  @Real mac_no_camera (mkSim false []).

(** A capturer running on the one camera, bare and with a callback. *)
Definition on_camera : State := started (L := mac_one_camera) 0 0%nat.

Definition on_camera_counting : State :=
  fst (set_frame_callback (counting_callback (L := mac_one_camera) S)
         on_camera).

Definition on_camera_raising : State :=
  fst (set_frame_callback (raising_callback (L := mac_one_camera)) on_camera).


Definition on_camera_falsy : State :=
  fst (set_frame_callback (falsy_callback (L := mac_one_camera) S) on_camera).

(** The camera's capture before any read, after one and after two. *)
Definition live_capture (feed : list (bool * option ndarray))
  : @Cap mac_one_camera := @Real mac_one_camera (mkSim true feed).

Definition after_first_read : State := fst (read on_camera).

End Sim.

(** ** Further predicates, for the properties beyond the claims *)

Section MorePredicates.

Context {L : CaptureLib}.

(** Every constructor call of the list raises when tried in order from
    world [w]. *)
Fixpoint all_probes_raise (methods : list (Z * Backend)) (w : World) : bool :=
  match methods with
  | [] => true
  | (dev_id, backend) :: rest =>
      let '(w', r) := cv2_VideoCapture dev_id backend w in
      match r with
      | inl _ => all_probes_raise rest w'
      | inr _ => false
      end
  end.

(** How often [cv2.VideoCapture] was called in a trace. *)
Definition is_constructor_event (e : Event) : bool :=
  match e with EvVideoCapture _ _ => true | _ => false end.

Definition constructor_calls (t : list Event) : nat :=
  List.length (filter is_constructor_event t).

(** A [release] call on an object that reported opened. *)
Definition releases_opened (e : Event) : bool :=
  match e with EvRelease c => cap_isOpened c | _ => false end.

(** The [isOpened] call of [not self.cap or not self.cap.isOpened()]: made
    only when [self.cap] is not [None]. *)
Definition opened_check (oc : option Cap) : list Event :=
  match oc with
  | Some c => [EvIsOpened c]
  | None => []
  end.

(** The three [set] calls of [start] on object [c], in source order. *)
Definition configure_events (c : Cap) (width height fps : Z) : list Event :=
  let c1 := fst (cap_set c CAP_PROP_FRAME_WIDTH width) in
  let c2 := fst (cap_set c1 CAP_PROP_FRAME_HEIGHT height) in
  [EvSet c CAP_PROP_FRAME_WIDTH width;
   EvSet c1 CAP_PROP_FRAME_HEIGHT height;
   EvSet c2 CAP_PROP_FPS fps].

(** What [np.zeros] raises for a [DummyCamera] with a negative size: the
    refusal of the negative dimension, unless a dimension does not even
    convert to [npy_intp]. *)
Definition negative_size_error (d : DummyCamera.t) : PyExc :=
  ValueError
    (if fits_intp (DummyCamera.height d) && fits_intp (DummyCamera.width d)
        && fits_intp 3
     then "negative dimensions are not allowed"
     else "Maximum allowed dimension exceeded").

(** A capture after [n] calls of its own [read]. *)
Fixpoint handle_after (n : nat) (h : Handle) : Handle :=
  match n with
  | O => h
  | S n' => handle_after n' (fst (vc_read h))
  end.

(** What [VideoCapturer.read] makes of a handle's answer: the frame on
    success, [(False, None)] otherwise. *)
Definition read_outcome (r : bool * option ndarray) : bool * option ndarray :=
  if fst r then (true, snd r) else (false, None).

End MorePredicates.

(** A [DummyCamera] after [n] calls of [release]. *)
Fixpoint released_times (n : nat) (d : DummyCamera.t) : DummyCamera.t :=
  match n with
  | O => d
  | S n' => released_times n' (DummyCamera.release d)
  end.

Module SimMore.

(** A host on which the constructor raises for every pair. *)
Definition always_raises (dev_id : Z) (backend : Backend)
  : PyExc + Sim.SimHandle :=
  inl (OtherException "cv2.error" "backend unavailable").

Definition mac_broken : CaptureLib := Sim.lib "Darwin" [] always_raises.

(** A capturer running on the 3 by 2 dummy of that host. *)
Definition on_dummy : State := Sim.started (L := mac_broken) 1 0%nat.


End SimMore.

(** * Properties *)

Section Facts.

Context {L : CaptureLib}.

Implicit Types (s : State) (c : Cap) (o : VideoCapturer).

(** ** One probe *)

Lemma probe_raises dev_id backend s w' e :
  cv2_VideoCapture dev_id backend (world s) = (w', inl e) ->
  probe dev_id backend s
  = (mkState (self s) w' (trace s ++ [EvVideoCapture dev_id backend]),
     inr false).
Proof.
  intros H. unfold probe, try_except, bind, call_VideoCapture.
  rewrite H. reflexivity.
Qed.

Lemma probe_not_opened dev_id backend s w' h :
  cv2_VideoCapture dev_id backend (world s) = (w', inr h) ->
  vc_isOpened h = false ->
  probe dev_id backend s
  = (mkState (with_cap (Some (Real (vc_release h))) (self s)) w'
       (trace s ++ [EvVideoCapture dev_id backend; EvIsOpened (Real h);
                    EvRelease (Real h)]),
     inr false).
Proof.
  intros H Hop. unfold probe, try_except, bind, call_VideoCapture.
  rewrite H. cbn. rewrite Hop. cbn.
  rewrite <- !app_assoc. reflexivity.
Qed.

Lemma probe_opened dev_id backend s w' h :
  cv2_VideoCapture dev_id backend (world s) = (w', inr h) ->
  vc_isOpened h = true ->
  probe dev_id backend s
  = (mkState (with_cap (Some (Real h)) (self s)) w'
       (trace s ++ [EvVideoCapture dev_id backend; EvIsOpened (Real h)]),
     inr true).
Proof.
  intros H Hop. unfold probe, try_except, bind, call_VideoCapture.
  rewrite H. cbn. rewrite Hop. cbn.
  rewrite <- !app_assoc. reflexivity.
Qed.

Lemma cap_update_refl o : cap_update o o.
Proof. split; [now left | now destruct o]. Qed.

Lemma cap_update_trans o1 o2 o3 :
  cap_update o1 o2 -> cap_update o2 o3 -> cap_update o1 o3.
Proof.
  intros [H1 E1] [H2 E2]. split.
  - destruct H2 as [H2 | H2]; [rewrite H2; exact H1 | now right].
  - rewrite E2, E1. now destruct o1.
Qed.

Lemma probe_returns dev_id backend s :
  exists s' brk,
    probe dev_id backend s = (s', inr brk) /\ cap_update (self s) (self s').
Proof.
  destruct (cv2_VideoCapture dev_id backend (world s)) as [w' [e | h]] eqn:E.
  - eexists _, _. split; [apply (probe_raises _ _ _ E) |]. apply cap_update_refl.
  - destruct (vc_isOpened h) eqn:Hop.
    + eexists _, _. split; [apply (probe_opened _ _ _ E Hop) |].
      split; cbn; [right; eauto | now destruct (self s)].
    + eexists _, _. split; [apply (probe_not_opened _ _ _ E Hop) |].
      split; cbn; [right; eauto | now destruct (self s)].
Qed.

Lemma probe_loop_cons dev_id backend rest s :
  probe_loop ((dev_id, backend) :: rest) s
  = match probe dev_id backend s with
    | (s', inr true) => (s', inr tt)
    | (s', inr false) => probe_loop rest s'
    | (s', inl e) => (s', inl e)
    end.
Proof.
  cbn [probe_loop]. unfold bind.
  destruct (probe dev_id backend s) as [s' [e | [|]]]; reflexivity.
Qed.

(** The loop returns from every state, whatever the probes do. *)
Lemma probe_loop_returns methods : forall s,
  exists s', probe_loop methods s = (s', inr tt)
             /\ cap_update (self s) (self s').
Proof.
  induction methods as [| [dev_id backend] rest IH]; intros s.
  - exists s. split; [reflexivity | apply cap_update_refl].
  - rewrite probe_loop_cons.
    destruct (probe_returns dev_id backend s) as (s1 & brk & E & U).
    rewrite E. destruct brk.
    + exists s1. now split.
    + destruct (IH s1) as (s2 & E2 & U2). exists s2. split; [exact E2 |].
      eapply cap_update_trans; eassumption.
Qed.

(** ** [start] *)

Lemma self_cap_set_some prop value o w t c :
  cap o = Some c ->
  self_cap_set prop value (mkState o w t)
  = (mkState (with_cap (Some (fst (cap_set c prop value))) o) w
       (t ++ [EvSet c prop value]),
     inr (snd (cap_set c prop value))).
Proof.
  intros H. unfold self_cap_set, bind, get_self. cbn. rewrite H. cbn.
  destruct (cap_set c prop value) as [c' r]. reflexivity.
Qed.

Lemma start_from_loop width height fps s s1 :
  probe_loop (capture_methods platform_system (device_index (self s))) s
  = (s1, inr tt) ->
  cap_update (self s) (self s1) ->
  exists w' t',
    start width height fps s
    = (mkState
         (with_is_running true
            (with_cap
               (Some (configured (chosen_cap (cap (self s1)) width height)
                        width height fps))
               (self s)))
         w' t',
       inr true).
Proof.
  intros E [_ U]. unfold start, try_except.
  unfold bind at 1. unfold get_self at 1. cbn beta iota.
  unfold bind at 1. rewrite E.
  destruct s1 as [o1 w1 t1]. cbn in U.
  unfold bind at 1.
  assert (Hnc : exists t2,
    no_camera (mkState o1 w1 t1) = (mkState o1 w1 t2, inr (closed (cap o1)))).
  { unfold no_camera, self_cap_isOpened, bind, get_self, emit, ret. cbn.
    destruct (cap o1) as [c |] eqn:Hc; cbn; rewrite ?Hc; cbn;
      eexists; reflexivity. }
  destruct Hnc as (t2 & ->).
  set (c0 := chosen_cap (cap o1) width height).
  assert (Hinst : exists o2,
    (if closed (cap o1)
     then modify_self
            (with_cap (Some (Dummy (DummyCamera.init width height))))
     else ret tt) (mkState o1 w1 t2) = (mkState o2 w1 t2, inr tt)
    /\ cap o2 = Some c0 /\ o2 = with_cap (Some c0) (self s)).
  { subst c0. unfold chosen_cap, closed.
    destruct (cap o1) as [c |] eqn:Hc; cbn.
    - destruct (cap_isOpened c) eqn:Ho; cbn.
      + exists o1. split; [reflexivity | split; [exact Hc | exact U]].
      + eexists. unfold modify_self. cbn.
        split; [reflexivity | split; [reflexivity |]].
        rewrite U. now destruct (self s).
    - eexists. unfold modify_self. cbn.
      split; [reflexivity | split; [reflexivity |]].
      rewrite U. now destruct (self s). }
  destruct Hinst as (o2 & E2 & Hc2 & Ho2).
  unfold bind at 1. rewrite E2.
  unfold bind at 1. rewrite (self_cap_set_some _ _ _ _ _ Hc2).
  unfold bind at 1. erewrite self_cap_set_some by reflexivity.
  unfold bind at 1. erewrite self_cap_set_some by reflexivity.
  unfold bind, modify_self, ret. cbn.
  eexists _, _. f_equal. f_equal.
  rewrite Ho2. unfold configured. now destruct (self s).
Qed.

(** [start] returns [True] from every state, holding a handle and running. *)
Lemma start_returns width height fps s :
  exists s1 w' t',
    probe_loop (capture_methods platform_system (device_index (self s))) s
    = (s1, inr tt)
    /\ cap_update (self s) (self s1)
    /\ start width height fps s
       = (mkState
            (with_is_running true
               (with_cap
                  (Some (configured (chosen_cap (cap (self s1)) width height)
                           width height fps))
                  (self s)))
            w' t',
          inr true).
Proof.
  destruct (probe_loop_returns
              (capture_methods platform_system (device_index (self s))) s)
    as (s1 & E & U).
  destruct (@start_from_loop width height fps s s1 E U) as (w' & t' & Hs).
  exists s1, w', t'. auto.
Qed.

(** ** [read], case by case *)

Lemma read_guard s :
  is_running (self s) = false \/ cap (self s) = None ->
  read s = (s, inr (false, None)).
Proof.
  intros H. unfold read, bind, get_self.
  destruct H as [H | H]; rewrite H; cbn; [reflexivity |].
  now rewrite orb_true_r.
Qed.

Lemma read_handle_raised s c e :
  is_running (self s) = true -> cap (self s) = Some c ->
  cap_read c = inl e ->
  read s = (mkState (self s) (world s) (trace s ++ [EvRead c]), inl e).
Proof.
  intros Hr Hc He.
  unfold read, bind, get_self, self_cap_read, bind, get_self.
  rewrite Hr, Hc. cbn -[cap_read]. rewrite ?Hc. cbn -[cap_read]. rewrite He. reflexivity.
Qed.

Lemma read_handle_failed s c c' junk :
  is_running (self s) = true -> cap (self s) = Some c ->
  cap_read c = inr (c', (false, junk)) ->
  read s = (mkState (with_cap (Some c') (self s)) (world s)
              (trace s ++ [EvRead c]),
            inr (false, None)).
Proof.
  intros Hr Hc He.
  unfold read, bind, get_self, self_cap_read, bind, get_self.
  rewrite Hr, Hc. cbn -[cap_read]. rewrite ?Hc. cbn -[cap_read]. rewrite He. reflexivity.
Qed.

Lemma read_no_callback s c c' frame :
  is_running (self s) = true -> cap (self s) = Some c ->
  cap_read c = inr (c', (true, frame)) ->
  frame_callback (self s) = None ->
  read s = (mkState (with_current_frame frame (with_cap (Some c') (self s)))
              (world s) (trace s ++ [EvRead c]),
            inr (true, frame)).
Proof.
  intros Hr Hc He Hcb.
  unfold read, bind, get_self, self_cap_read, bind, get_self.
  rewrite Hr, Hc. cbn -[cap_read]. rewrite ?Hc. cbn -[cap_read]. rewrite He. cbn. rewrite Hcb. reflexivity.
Qed.

Lemma read_callback s c c' frame cb :
  is_running (self s) = true -> cap (self s) = Some c ->
  cap_read c = inr (c', (true, frame)) ->
  frame_callback (self s) = Some cb ->
  cb_truth cb (world s) = true ->
  read s
  = (mkState (with_current_frame frame (with_cap (Some c') (self s)))
       (fst (cb_call cb frame (world s)))
       (trace s ++ [EvRead c; EvCallback cb frame]),
     match snd (cb_call cb frame (world s)) with
     | inl e => inl e
     | inr _ => inr (true, frame)
     end).
Proof.
  intros Hr Hc He Hcb Ht.
  unfold read, bind, get_self, self_cap_read, bind, get_self.
  rewrite Hr, Hc. cbn -[cap_read]. rewrite ?Hc. cbn -[cap_read]. rewrite He. cbn. rewrite Hcb.
  unfold truth_value, call_callback. cbn. rewrite Ht. cbn.
  destruct (cb_call cb frame (world s)) as [w' [e | []]]; cbn;
    rewrite <- app_assoc; reflexivity.
Qed.

(** A registered object that is false is passed over like [None]. *)
Lemma read_callback_falsy s c c' frame cb :
  is_running (self s) = true -> cap (self s) = Some c ->
  cap_read c = inr (c', (true, frame)) ->
  frame_callback (self s) = Some cb ->
  cb_truth cb (world s) = false ->
  read s = (mkState (with_current_frame frame (with_cap (Some c') (self s)))
              (world s) (trace s ++ [EvRead c]),
            inr (true, frame)).
Proof.
  intros Hr Hc He Hcb Ht.
  unfold read, bind, get_self, self_cap_read, bind, get_self.
  rewrite Hr, Hc. cbn -[cap_read]. rewrite ?Hc. cbn -[cap_read]. rewrite He. cbn. rewrite Hcb.
  unfold truth_value. cbn. rewrite Ht. reflexivity.
Qed.

(** [read] never changes [is_running] and never clears or fills [cap]. *)
Lemma read_keeps_handle s :
  is_running (self (fst (read s))) = is_running (self s)
  /\ is_None (cap (self (fst (read s)))) = is_None (cap (self s))
  /\ frame_callback (self (fst (read s))) = frame_callback (self s).
Proof.
  destruct (is_running (self s)) eqn:Hr.
  2:{ rewrite read_guard by (left; exact Hr). cbn. auto. }
  destruct (cap (self s)) as [c |] eqn:Hc.
  2:{ rewrite read_guard by (right; exact Hc). cbn. rewrite Hc. auto. }
  destruct (cap_read c) as [e | [c' [[|] frame]]] eqn:He.
  - rewrite (read_handle_raised _ Hr Hc He). cbn. rewrite Hr, Hc. auto.
  - destruct (frame_callback (self s)) as [cb |] eqn:Hcb.
    + destruct (cb_truth cb (world s)) eqn:Ht.
      * rewrite (read_callback _ Hr Hc He Hcb Ht). cbn. auto.
      * rewrite (read_callback_falsy _ Hr Hc He Hcb Ht). cbn. auto.
    + rewrite (read_no_callback _ Hr Hc He Hcb). cbn. auto.
  - rewrite (read_handle_failed _ Hr Hc He). cbn. auto.
Qed.

(** ** [release] *)

Lemma release_noop s :
  is_running (self s) = false \/ cap (self s) = None ->
  release s = (s, inr tt).
Proof.
  intros H. unfold release, bind, get_self.
  destruct H as [H | H]; rewrite H; cbn; [reflexivity |].
  now rewrite andb_false_r.
Qed.

Lemma release_running s c :
  is_running (self s) = true -> cap (self s) = Some c ->
  release s
  = (mkState (with_cap None (with_is_running false (self s))) (world s)
       (trace s ++ [EvRelease c]),
     inr tt).
Proof.
  intros Hr Hc.
  unfold release, bind, get_self, self_cap_release, bind, get_self.
  rewrite Hr, Hc. cbn. rewrite Hc. cbn. now destruct (self s).
Qed.

(** After [release] the capturer is stopped or holds nothing. *)
Lemma release_stops s :
  is_running (self (fst (release s))) = false
  \/ cap (self (fst (release s))) = None.
Proof.
  destruct (is_running (self s)) eqn:Hr.
  2:{ rewrite release_noop by (left; exact Hr). now left. }
  destruct (cap (self s)) as [c |] eqn:Hc.
  - rewrite (release_running _ Hr Hc). now left.
  - rewrite release_noop by (right; exact Hc). now right.
Qed.

(** ** The invariant *)

Lemma exec_keeps_invariant op s :
  running_has_handle (self s) = true ->
  running_has_handle (self (exec op s)) = true.
Proof.
  intros Inv. destruct op as [width height fps | | | cb]; cbn [exec].
  - destruct (start_returns width height fps s) as (s1 & w' & t' & _ & _ & E).
    rewrite E. reflexivity.
  - destruct (read_keeps_handle s) as (Hr & Hc & _).
    unfold running_has_handle in *. now rewrite Hr, Hc.
  - destruct (is_running (self s)) eqn:Hr.
    2:{ rewrite release_noop by (left; exact Hr). exact Inv. }
    destruct (cap (self s)) as [c |] eqn:Hc.
    + rewrite (release_running _ Hr Hc). reflexivity.
    + rewrite release_noop by (right; exact Hc). exact Inv.
  - exact Inv.
Qed.

Lemma reachable_invariant s :
  reachable s -> running_has_handle (self s) = true.
Proof.
  induction 1 as [idx w o Hinit | s op _ IH | s w' _ IH].
  - unfold init in Hinit.
    destruct (platform_system =? "Windows")%string;
      [destruct (idx >=? _) |]; inversion Hinit; reflexivity.
  - now apply exec_keeps_invariant.
  - exact IH.
Qed.

Lemma invariant_handle o :
  running_has_handle o = true -> is_running o = true ->
  exists c, cap o = Some c.
Proof.
  unfold running_has_handle. intros H Hr. rewrite Hr in H.
  destruct (cap o) as [c |]; [eauto | discriminate].
Qed.

(** ** The probe loop when no camera can be opened *)

Lemma check_dims_error dims : forall nbytes e,
  check_dims nbytes dims = inl e -> exists msg, e = ValueError msg.
Proof.
  induction dims as [| d rest IH]; intros nbytes e H; cbn in H;
    [discriminate |].
  destruct (d =? 0); [eauto |].
  destruct (d <? 0); [inversion H; eauto |].
  destruct (NPY_MAX_INTP <? nbytes * d); [inversion H; eauto | eauto].
Qed.

(** [np.zeros] raises nothing but [ValueError] and its memory error. *)
Lemma np_zeros_error shp e :
  np_zeros shp = inl e ->
  (exists msg, e = ValueError msg) \/ e = ArrayMemoryError shp.
Proof.
  destruct shp as [[d0 d1] d2]. unfold np_zeros.
  destruct (negb _); [intros H; inversion H; eauto |].
  destruct (check_dims 1 [d0; d1; d2]) as [e' | nbytes] eqn:Ec.
  - intros H. inversion H; subst. left. exact (check_dims_error _ _ Ec).
  - destruct (can_allocate _); [discriminate |].
    intros H. inversion H. now right.
Qed.

Lemma np_zeros_black width height :
  frame_fits width height ->
  np_zeros (height, width, 3) = inr (black_frame width height).
Proof.
  intros (Hw & Hh & Hfit & Hmem). unfold np_zeros, black_frame.
  assert (H1 : 1 <= Z.max 1 height) by lia.
  assert (H2 : 1 <= Z.max 1 width) by lia.
  assert (Hh' : height <= Z.max 1 height * Z.max 1 width) by nia.
  assert (Hw' : width <= Z.max 1 height * Z.max 1 width) by nia.
  assert (Hfits : fits_intp height && fits_intp width && fits_intp 3 = true).
  { unfold fits_intp. rewrite !andb_true_iff, !Z.leb_le. lia. }
  rewrite Hfits. cbn [negb check_dims].
  destruct (Z.eqb_spec height 0) as [-> | Hhz];
    destruct (Z.eqb_spec width 0) as [-> | Hwz].
  - cbn. replace (NPY_MAX_INTP <? 3) with false
      by (symmetry; apply Z.ltb_ge; lia).
    cbn in Hmem. now rewrite Hmem.
  - replace (width <? 0) with false by (symmetry; apply Z.ltb_ge; lia).
    replace (NPY_MAX_INTP <? 1 * width) with false
      by (symmetry; apply Z.ltb_ge; lia).
    cbn [Z.eqb Z.ltb Z.compare].
    replace (NPY_MAX_INTP <? 1 * width * 3) with false
      by (symmetry; apply Z.ltb_ge; lia).
    cbn in Hmem |- *. now rewrite Hmem.
  - replace (height <? 0) with false by (symmetry; apply Z.ltb_ge; lia).
    replace (NPY_MAX_INTP <? 1 * height) with false
      by (symmetry; apply Z.ltb_ge; lia).
    cbn [Z.eqb Z.ltb Z.compare].
    replace (NPY_MAX_INTP <? 1 * height * 3) with false
      by (symmetry; apply Z.ltb_ge; lia).
    replace (height * 0 * 3) with 0 in * by lia.
    cbn in Hmem |- *. now rewrite Hmem.
  - replace (height <? 0) with false by (symmetry; apply Z.ltb_ge; lia).
    replace (NPY_MAX_INTP <? 1 * height) with false
      by (symmetry; apply Z.ltb_ge; lia).
    replace (width <? 0) with false by (symmetry; apply Z.ltb_ge; lia).
    replace (NPY_MAX_INTP <? 1 * height * width) with false
      by (symmetry; apply Z.ltb_ge; nia).
    cbn [Z.eqb Z.ltb Z.compare].
    replace (NPY_MAX_INTP <? 1 * height * width * 3) with false
      by (symmetry; apply Z.ltb_ge; nia).
    assert (Hpos : 0 < height * width * 3) by nia.
    replace (height * width * 3 =? 0) with false
      by (symmetry; apply Z.eqb_neq; lia).
    replace (Z.max 1 (height * width * 3)) with (1 * height * width * 3)
      in Hmem by lia.
    now rewrite Hmem.
Qed.

(** [frame_fits] is exactly when [np.zeros] returns. *)
Lemma np_zeros_returns_fits width height frame :
  np_zeros (height, width, 3) = inr frame -> frame_fits width height.
Proof.
  unfold np_zeros, frame_fits.
  destruct (fits_intp height && fits_intp width && fits_intp 3) eqn:Hf;
    cbn [negb]; [| discriminate].
  cbn [check_dims].
  destruct (Z.eqb_spec height 0) as [Hhz | Hhz];
    [| destruct (Z.ltb_spec height 0) as [Hhn | Hhn]; [discriminate |];
       destruct (Z.ltb_spec NPY_MAX_INTP (1 * height)) as [Hho | Hho];
       [discriminate |]];
    (destruct (Z.eqb_spec width 0) as [Hwz | Hwz];
     [| destruct (Z.ltb_spec width 0) as [Hwn | Hwn]; [discriminate |];
        match goal with
        | |- context [NPY_MAX_INTP <? ?a * width] =>
            destruct (Z.ltb_spec NPY_MAX_INTP (a * width)) as [Hwo | Hwo];
            [discriminate |]
        end]);
    cbn [Z.eqb Z.ltb Z.compare];
    match goal with
    | |- context [NPY_MAX_INTP <? ?a * 3] =>
        destruct (Z.ltb_spec NPY_MAX_INTP (a * 3)) as [H3 | H3];
        [discriminate |]
    end;
    destruct (Z.eqb_spec (height * width * 3) 0) as [Hs | Hs];
    match goal with
    | |- context [can_allocate ?a] =>
        destruct (can_allocate a) eqn:Hmem; [| discriminate]
    end;
    intros _; subst;
    repeat split; try lia; try nia;
    try (replace (Z.max 1 (height * width * 3)) with (1 * height * width * 3)
           by nia; exact Hmem);
    try (replace (Z.max 1 (0 * width * 3)) with 1 by lia; exact Hmem);
    try (replace (Z.max 1 (height * 0 * 3)) with 1 by lia; exact Hmem);
    try (replace (Z.max 1 (0 * 0 * 3)) with 1 by lia; exact Hmem).
Qed.





(** ** A stopped capturer stays stopped until it is started *)

Lemma callback_calls_app t1 t2 :
  callback_calls (t1 ++ t2) = (callback_calls t1 + callback_calls t2)%nat.
Proof. unfold callback_calls. now rewrite filter_app, length_app. Qed.

Lemma exec_keeps_stopped op s :
  is_start op = false ->
  is_running (self s) = false \/ cap (self s) = None ->
  is_running (self (exec op s)) = false \/ cap (self (exec op s)) = None.
Proof.
  intros Hop H. destruct op as [width height fps | | | cb]; cbn [exec].
  - discriminate.
  - now rewrite (read_guard s H).
  - now rewrite (release_noop s H).
  - exact H.
Qed.

Lemma exec_all_keeps_stopped ops : forall s,
  forallb (fun op => negb (is_start op)) ops = true ->
  is_running (self s) = false \/ cap (self s) = None ->
  is_running (self (exec_all ops s)) = false
  \/ cap (self (exec_all ops s)) = None.
Proof.
  induction ops as [| op ops IH]; intros s Hops H; [exact H |].
  cbn in Hops. apply andb_true_iff in Hops. destruct Hops as [Hop Hops].
  apply negb_true_iff in Hop.
  change (exec_all (op :: ops) s) with (exec_all ops (exec op s)).
  apply IH; [exact Hops |]. now apply exec_keeps_stopped.
Qed.

End Facts.

(** * The claims *)

Section Claims.

Context {L : CaptureLib}.

Implicit Types (s : State) (c : Cap).


(** C2 (as amended).  On a platform that enumerates devices (Windows),
    [__init__] succeeds for every index below the device count, negative
    indices included, and raises [ValueError] for every index at or above
    the count. *)
Theorem C2_init_checks_upper_bound (idx : Z) (w : World)
  (Hwin : platform_system = "Windows") :
  (idx < Z.of_nat (List.length (get_input_devices w)) ->
   init idx w = inr (mkVideoCapturer idx None None false false None true))
  /\ (Z.of_nat (List.length (get_input_devices w)) <= idx ->
      init idx w
      = inl (ValueError
               ("Invalid device index " ++ str_int idx
                ++ ". Available devices: "
                ++ str_int (Z.of_nat (List.length (get_input_devices w)))))).
Proof.
  unfold init. rewrite Hwin. cbn [String.eqb Ascii.eqb Bool.eqb].
  split; intros H.
  - replace (idx >=? _) with false; [reflexivity |].
    symmetry. rewrite Z.geb_leb. apply Z.leb_gt. exact H.
  - replace (idx >=? _) with true; [reflexivity |].
    symmetry. rewrite Z.geb_leb. apply Z.leb_le. exact H.
Qed.

(** C3.  In the probe loop of [start]: when the constructor raises, the
    exception is caught, the capturer is left as it was and the loop goes on
    with the next pair; when it returns a capture that is not opened, that
    capture is released and the loop goes on with the next pair.  The loop
    returns from every state, and so does [start]: no exception leaves
    either. *)
Theorem C3_probe_failures_stay_local (dev_id : Z) (backend : Backend)
    (rest : list (Z * Backend)) s :
  (forall w' e,
      cv2_VideoCapture dev_id backend (world s) = (w', inl e) ->
      probe_loop ((dev_id, backend) :: rest) s
      = probe_loop rest
          (mkState (self s) w' (trace s ++ [EvVideoCapture dev_id backend])))
  /\ (forall w' h,
      cv2_VideoCapture dev_id backend (world s) = (w', inr h) ->
      vc_isOpened h = false ->
      probe_loop ((dev_id, backend) :: rest) s
      = probe_loop rest
          (mkState (with_cap (Some (Real (vc_release h))) (self s)) w'
             (trace s ++ [EvVideoCapture dev_id backend; EvIsOpened (Real h);
                          EvRelease (Real h)])))
  /\ (forall methods s0, snd (probe_loop methods s0) = inr tt)
  /\ (forall width height fps s0,
      exists b, snd (start width height fps s0) = inr b).
Proof.
  split; [| split; [| split]].
  - intros w' e E. rewrite probe_loop_cons, (probe_raises _ _ _ E).
    reflexivity.
  - intros w' h E Hop.
    rewrite probe_loop_cons, (probe_not_opened _ _ _ E Hop). reflexivity.
  - intros methods s0.
    destruct (probe_loop_returns methods s0) as (s1 & E & _).
    now rewrite E.
  - intros width height fps s0.
    destruct (start_returns width height fps s0)
      as (s1 & w' & t' & _ & _ & E).
    exists true. now rewrite E.
Qed.

(** C4 (as amended).  On Windows the probe list is the requested index with
    DirectShow, the requested index with the generic backend, -1 with the
    generic backend and 0 with the generic backend, which is the shape the
    specification describes.  On every other platform it is the requested
    index with the generic backend, the requested index with AVFoundation,
    0 with the generic backend and 0 with AVFoundation, which is not.  On
    every platform the list has four pairs, the first two with the requested
    index and the last with index 0. *)
Theorem C4_probe_list_by_platform (platform : string) (idx : Z) :
  ((platform =? "Windows")%string = true ->
   capture_methods platform idx
   = [(idx, CAP_DSHOW); (idx, CAP_ANY); (-1, CAP_ANY); (0, CAP_ANY)]
   /\ universal_shape idx (capture_methods platform idx) = true)
  /\ ((platform =? "Windows")%string = false ->
      capture_methods platform idx
      = [(idx, CAP_ANY); (idx, CAP_AVFOUNDATION);
         (0, CAP_ANY); (0, CAP_AVFOUNDATION)]
      /\ universal_shape idx (capture_methods platform idx) = false)
  /\ (exists b1 b2 i3 b3 b4,
         capture_methods platform idx
         = [(idx, b1); (idx, b2); (i3, b3); (0, b4)]).
Proof.
  unfold capture_methods.
  split; [| split].
  - intros ->. split; [reflexivity |].
    unfold capture_methods_windows, universal_shape.
    rewrite Z.eqb_refl. reflexivity.
  - intros ->. split; [reflexivity |].
    unfold capture_methods_other, universal_shape.
    rewrite Z.eqb_refl. reflexivity.
  - destruct (platform =? "Windows")%string; repeat eexists.
Qed.

(** C5 (as amended).  If a callback is registered whose truth value is
    true, as [if self.frame_callback:] tests it, and [read] returns
    [(True, frame)], then the handle's own read produced that frame, the
    callback was called on exactly that frame and returned, the calls made
    during [read] are the handle's read followed by that one callback call,
    and [_current_frame] holds the frame. *)
Theorem C5_callback_called_once s s' (cb : Callback) (frame : option ndarray)
  (Hcb : frame_callback (self s) = Some cb)
  (Htruth : cb_truth cb (world s) = true)
  (Hread : read s = (s', inr (true, frame))) :
  exists c c',
    cap (self s) = Some c
    /\ cap_read c = inr (c', (true, frame))
    /\ cb_call cb frame (world s) = (world s', inr tt)
    /\ trace s' = (trace s ++ [EvRead c; EvCallback cb frame])%list
    /\ callback_calls (trace s') = S (callback_calls (trace s))
    /\ _current_frame (self s') = frame.
Proof.
  destruct (is_running (self s)) eqn:Hr.
  2:{ rewrite read_guard in Hread by (left; exact Hr). discriminate. }
  destruct (cap (self s)) as [c |] eqn:Hc.
  2:{ rewrite read_guard in Hread by (right; exact Hc). discriminate. }
  destruct (cap_read c) as [e | [c' [[|] frame']]] eqn:He.
  - rewrite (read_handle_raised _ Hr Hc He) in Hread. discriminate.
  - rewrite (read_callback _ Hr Hc He Hcb Htruth) in Hread.
    destruct (cb_call cb frame' (world s)) as [w' [e | []]] eqn:Ecb;
      cbn [fst snd] in Hread; [discriminate |].
    injection Hread as <- <-.
    exists c, c'. cbn [self world trace].
    split; [first [reflexivity | assumption] |].
    split; [first [reflexivity | assumption] |].
    split; [first [reflexivity | assumption] |].
    split; [reflexivity |].
    split; [| reflexivity].
    rewrite callback_calls_app. cbn. lia.
  - rewrite (read_handle_failed _ Hr Hc He) in Hread. discriminate.
Qed.

(** C6.  When the capturer is running on a handle whose read reports
    failure, [read] returns [(False, None)]; the only call made is the
    handle's read, so the callback is not called; [_current_frame] and every
    other attribute are as before, [self.cap] still being that handle. *)
Theorem C6_failed_read_changes_nothing s c c' (junk : option ndarray)
  (Hrun : is_running (self s) = true)
  (Hcap : cap (self s) = Some c)
  (Hfail : cap_read c = inr (c', (false, junk))) :
  read s
  = (mkState (with_cap (Some c') (self s)) (world s) (trace s ++ [EvRead c]),
     inr (false, None))
  /\ _current_frame (self (fst (read s))) = _current_frame (self s)
  /\ frame_callback (self (fst (read s))) = frame_callback (self s)
  /\ is_running (self (fst (read s))) = true
  /\ device_index (self (fst (read s))) = device_index (self s)
  /\ callback_calls (trace (fst (read s))) = callback_calls (trace s).
Proof.
  rewrite (read_handle_failed _ Hrun Hcap Hfail). cbn [fst self trace].
  rewrite callback_calls_app. cbn.
  split; [reflexivity |]. split; [reflexivity |]. split; [reflexivity |].
  split; [exact Hrun |]. split; [reflexivity | lia].
Qed.

(** C7.  When the capturer is not running or holds no handle, [read]
    returns [(False, None)] and leaves the whole state as it is: no call is
    made and nothing is started.  This is the case after [release], and
    stays so through any further calls other than [start]. *)
Theorem C7_read_when_stopped s :
  (is_running (self s) = false \/ cap (self s) = None ->
   read s = (s, inr (false, None)))
  /\ (forall ops,
        forallb (fun op => negb (is_start op)) ops = true ->
        read (exec_all ops (fst (release s)))
        = (exec_all ops (fst (release s)), inr (false, None))).
Proof.
  split; [apply read_guard |].
  intros ops Hops. apply read_guard.
  apply exec_all_keeps_stopped; [exact Hops | apply release_stops].
Qed.

(** C8.  [release] does nothing when the capturer is not running.  When it
    is running on a handle, [release] calls the handle's release once,
    clears [self.cap] and sets [is_running] to false; a running capturer
    reached through the public operations always has such a handle.  From
    any state, a second [release] returns without error and changes
    nothing, so the handle is not released again. *)
Theorem C8_release_idempotent s :
  (is_running (self s) = false -> release s = (s, inr tt))
  /\ (forall c,
        is_running (self s) = true -> cap (self s) = Some c ->
        release s
        = (mkState (with_cap None (with_is_running false (self s)))
             (world s) (trace s ++ [EvRelease c]),
           inr tt))
  /\ (reachable s -> is_running (self s) = true ->
      exists c, cap (self s) = Some c)
  /\ release (fst (release s)) = (fst (release s), inr tt).
Proof.
  split; [| split; [| split]].
  - intros H. apply release_noop. now left.
  - intros c. apply release_running.
  - intros Hreach. apply invariant_handle.
    now apply reachable_invariant.
  - apply release_noop, release_stops.
Qed.

(** C9.  In every state reached from a constructed capturer by [start],
    [read], [release] and [set_frame_callback], a running capturer holds a
    handle; its [read] calls that handle's read, and the call
    [self.cap.read()] does not fail for want of a handle. *)
Theorem C9_running_implies_handle s
  (Hreach : reachable s)
  (Hrun : is_running (self s) = true) :
  exists c,
    cap (self s) = Some c
    /\ (exists t, trace (fst (read s)) = (trace s ++ EvRead c :: t)%list)
    /\ (forall msg, snd (self_cap_read s) <> inl (AttributeError msg)).
Proof.
  destruct (invariant_handle _ (reachable_invariant Hreach) Hrun)
    as (c & Hc).
  exists c. split; [exact Hc |]. split.
  - destruct (cap_read c) as [e | [c' [[|] frame]]] eqn:He.
    + rewrite (read_handle_raised _ Hrun Hc He). now exists [].
    + destruct (frame_callback (self s)) as [cb |] eqn:Hcb.
      * destruct (cb_truth cb (world s)) eqn:Ht.
        -- rewrite (read_callback _ Hrun Hc He Hcb Ht). now eexists.
        -- rewrite (read_callback_falsy _ Hrun Hc He Hcb Ht). now exists [].
      * rewrite (read_no_callback _ Hrun Hc He Hcb). now exists [].
    + rewrite (read_handle_failed _ Hrun Hc He). now exists [].
  - intros msg. unfold self_cap_read, bind, get_self. cbn. rewrite Hc. cbn.
    destruct c as [h | d]; cbn.
    + destruct (vc_read h). discriminate.
    + unfold DummyCamera.read.
      destruct (np_zeros _) as [e |] eqn:Ez; [| discriminate].
      destruct (np_zeros_error _ Ez) as [(m & ->) | ->]; discriminate.
Qed.

(** C10.  If the handle's read succeeds and the registered callback, called
    because its truth value is true, raises, [read] raises that same
    exception, and the state it leaves has [_current_frame] already set to
    the frame just read. *)
Theorem C10_callback_exception_escapes s c c' (frame : option ndarray)
    (cb : Callback) (w' : World) (e : PyExc)
  (Hrun : is_running (self s) = true)
  (Hcap : cap (self s) = Some c)
  (Hok : cap_read c = inr (c', (true, frame)))
  (Hcb : frame_callback (self s) = Some cb)
  (Htruth : cb_truth cb (world s) = true)
  (Hraise : cb_call cb frame (world s) = (w', inl e)) :
  read s
  = (mkState (with_current_frame frame (with_cap (Some c') (self s))) w'
       (trace s ++ [EvRead c; EvCallback cb frame]),
     inl e)
  /\ _current_frame (self (fst (read s))) = frame.
Proof.
  rewrite (read_callback _ Hrun Hcap Hok Hcb Htruth), Hraise.
  split; reflexivity.
Qed.

End Claims.

(** * The claims on the simulated hosts *)



(** With a camera present the first pair that opens is kept: on the host
    with one camera, index 0 opens under the generic backend. *)
Example camera_is_kept :
  cap (self Sim.on_camera)
  = Some (Sim.live_capture [(true, Some Sim.pixel); (false, None)])
  /\ snd (read Sim.on_camera) = inr (true, Some Sim.pixel).
Proof. split; vm_compute; reflexivity. Qed.

Lemma C2_init_checks_upper_bound_witness :
  @platform_system Sim.windows_two_devices = "Windows"
  /\ init (L := Sim.windows_two_devices) 1 0%nat
     = inr (mkVideoCapturer 1 None None false false None true)
  /\ init (L := Sim.windows_two_devices) 5 0%nat
     = inl (ValueError "Invalid device index 5. Available devices: 2").
Proof.
  split; [reflexivity |].
  destruct (@C2_init_checks_upper_bound Sim.windows_two_devices 1 0%nat
              eq_refl) as [Hlow _].
  destruct (@C2_init_checks_upper_bound Sim.windows_two_devices 5 0%nat
              eq_refl) as [_ Hhigh].
  split; [apply Hlow; cbn; lia | apply Hhigh; cbn; lia].
Defined.

(** C2, as stated, fails at index -1 on a Windows host with two devices:
    the index is outside 0 <= index < 2 and construction succeeds. *)
Lemma C2_negative_index_accepted :
  @platform_system Sim.windows_two_devices = "Windows"
  /\ List.length (@get_input_devices Sim.windows_two_devices 0%nat) = 2%nat
  /\ ~ (0 <= -1 < 2)
  /\ init (L := Sim.windows_two_devices) (-1) 0%nat
     = inr (mkVideoCapturer (-1) None None false false None true).
Proof.
  split; [reflexivity |]. split; [reflexivity |].
  split; [lia | reflexivity].
Qed.

Lemma C3_probe_failures_stay_local_witness :
  probe_loop [(1, CAP_ANY); (0, CAP_ANY)]
    (Sim.fresh (L := Sim.mac_no_camera) 1 0%nat)
  = probe_loop [(0, CAP_ANY)]
      (mkState (self (Sim.fresh (L := Sim.mac_no_camera) 1 0%nat)) 1%nat
         [EvVideoCapture 1 CAP_ANY])
  /\ probe_loop [(0, CAP_ANY); (0, CAP_AVFOUNDATION)]
       (Sim.fresh (L := Sim.mac_no_camera) 1 0%nat)
     = probe_loop [(0, CAP_AVFOUNDATION)]
         (mkState
            (with_cap (Some Sim.dead_capture)
               (self (Sim.fresh (L := Sim.mac_no_camera) 1 0%nat)))
            1%nat
            [EvVideoCapture 0 CAP_ANY; EvIsOpened Sim.dead_capture;
             EvRelease Sim.dead_capture]).
Proof.
  split.
  - destruct (@C3_probe_failures_stay_local Sim.mac_no_camera 1 CAP_ANY
                [(0, CAP_ANY)] (Sim.fresh (L := Sim.mac_no_camera) 1 0%nat))
      as (Hraise & _).
    exact (Hraise _ _ eq_refl).
  - destruct (@C3_probe_failures_stay_local Sim.mac_no_camera 0 CAP_ANY
                [(0, CAP_AVFOUNDATION)]
                (Sim.fresh (L := Sim.mac_no_camera) 1 0%nat))
      as (_ & Hclosed & _).
    exact (Hclosed _ _ eq_refl eq_refl).
Defined.

Lemma C4_probe_list_by_platform_witness :
  universal_shape 2 (capture_methods "Windows" 2) = true
  /\ capture_methods "Linux" 2
     = [(2, CAP_ANY); (2, CAP_AVFOUNDATION);
        (0, CAP_ANY); (0, CAP_AVFOUNDATION)].
Proof.
  split.
  - destruct (C4_probe_list_by_platform "Windows" 2) as (Hwin & _).
    exact (proj2 (Hwin eq_refl)).
  - destruct (C4_probe_list_by_platform "Linux" 2) as (_ & Hother & _).
    exact (proj1 (Hother eq_refl)).
Defined.

(** C4, as stated, fails on macOS: the first pair carries the generic
    backend, the native one comes second, and no -1 sentinel follows. *)
Lemma C4_darwin_list_breaks_shape :
  capture_methods "Darwin" 1
  = [(1, CAP_ANY); (1, CAP_AVFOUNDATION); (0, CAP_ANY); (0, CAP_AVFOUNDATION)]
  /\ is_generic (snd (hd (0, CAP_DSHOW) (capture_methods "Darwin" 1))) = true
  /\ universal_shape 1 (capture_methods "Darwin" 1) = false.
Proof. repeat split. Qed.

Lemma C5_callback_called_once_witness :
  frame_callback (self Sim.on_camera_counting)
  = Some (Sim.counting_callback (L := Sim.mac_one_camera) S)
  /\ snd (read Sim.on_camera_counting) = inr (true, Some Sim.pixel)
  /\ callback_calls (trace (fst (read Sim.on_camera_counting)))
     = S (callback_calls (trace Sim.on_camera_counting))
  /\ _current_frame (self (fst (read Sim.on_camera_counting)))
     = Some Sim.pixel.
Proof.
  assert (Hcb : frame_callback (self Sim.on_camera_counting)
                = Some (Sim.counting_callback (L := Sim.mac_one_camera) S))
    by (vm_compute; reflexivity).
  assert (Hread : read Sim.on_camera_counting
                  = (fst (read Sim.on_camera_counting),
                     inr (true, Some Sim.pixel)))
    by (vm_compute; reflexivity).
  split; [exact Hcb |]. split; [now rewrite Hread |].
  assert (Htruth : cb_truth
                     (Sim.counting_callback (L := Sim.mac_one_camera) S)
                     (world Sim.on_camera_counting) = true)
    by (vm_compute; reflexivity).
  destruct (@C5_callback_called_once Sim.mac_one_camera _ _ _ _
              Hcb Htruth Hread)
    as (c & c' & _ & _ & _ & _ & Hcalls & Hframe).
  split; assumption.
Defined.

(** C5, as stated, fails for a registered callable whose truth value is
    false: [read] succeeds and stores the frame, and the callback is not
    called. *)
Lemma C5_falsy_callback_not_called :
  frame_callback (self Sim.on_camera_falsy)
  = Some (Sim.falsy_callback (L := Sim.mac_one_camera) S)
  /\ snd (read Sim.on_camera_falsy) = inr (true, Some Sim.pixel)
  /\ _current_frame (self (fst (read Sim.on_camera_falsy)))
     = Some Sim.pixel
  /\ callback_calls (trace (fst (read Sim.on_camera_falsy)))
     = callback_calls (trace Sim.on_camera_falsy)
  /\ callback_calls (trace (fst (read Sim.on_camera_falsy))) = 0%nat
  /\ world (fst (read Sim.on_camera_falsy)) = world Sim.on_camera_falsy.
Proof.
  split; [vm_compute; reflexivity |]. split; [vm_compute; reflexivity |].
  split; [vm_compute; reflexivity |]. split; [vm_compute; reflexivity |].
  split; vm_compute; reflexivity.
Qed.

Lemma C6_failed_read_changes_nothing_witness :
  cap_read (Sim.live_capture [(false, None)])
  = inr (Sim.live_capture [], (false, None))
  /\ snd (read Sim.after_first_read) = inr (false, None)
  /\ _current_frame (self (fst (read Sim.after_first_read)))
     = Some Sim.pixel
  /\ callback_calls (trace (fst (read Sim.after_first_read)))
     = callback_calls (trace Sim.after_first_read).
Proof.
  split; [reflexivity |].
  destruct (@C6_failed_read_changes_nothing Sim.mac_one_camera
              Sim.after_first_read (Sim.live_capture [(false, None)])
              (Sim.live_capture []) None eq_refl eq_refl eq_refl)
    as (Hread & Hframe & _ & _ & _ & Hcalls).
  split; [now rewrite Hread |].
  split; [exact Hframe | exact Hcalls].
Defined.

Lemma C7_read_when_stopped_witness :
  read (Sim.fresh (L := Sim.mac_one_camera) 0 0%nat)
  = (Sim.fresh (L := Sim.mac_one_camera) 0 0%nat, inr (false, None))
  /\ snd (read (exec_all [OpRead; OpRelease] (fst (release Sim.on_camera))))
     = inr (false, None).
Proof.
  split.
  - destruct (@C7_read_when_stopped Sim.mac_one_camera
                (Sim.fresh (L := Sim.mac_one_camera) 0 0%nat)) as (Hguard & _).
    apply Hguard. left. reflexivity.
  - destruct (@C7_read_when_stopped Sim.mac_one_camera Sim.on_camera)
      as (_ & Hafter).
    rewrite (Hafter [OpRead; OpRelease] eq_refl). reflexivity.
Defined.

Lemma C8_release_idempotent_witness :
  is_running (self Sim.on_camera) = true
  /\ release Sim.on_camera
     = (mkState (with_cap None (with_is_running false (self Sim.on_camera)))
          (world Sim.on_camera)
          (trace Sim.on_camera
           ++ [EvRelease
                 (Sim.live_capture [(true, Some Sim.pixel); (false, None)])]),
        inr tt)
  /\ release (Sim.fresh (L := Sim.mac_one_camera) 0 0%nat)
     = (Sim.fresh (L := Sim.mac_one_camera) 0 0%nat, inr tt).
Proof.
  split; [reflexivity |]. split.
  - destruct (@C8_release_idempotent Sim.mac_one_camera Sim.on_camera)
      as (_ & Hrun & _).
    apply Hrun; reflexivity.
  - destruct (@C8_release_idempotent Sim.mac_one_camera
                (Sim.fresh (L := Sim.mac_one_camera) 0 0%nat))
      as (Hstopped & _).
    apply Hstopped. reflexivity.
Defined.

Lemma on_camera_reachable : reachable Sim.on_camera.
Proof.
  unfold Sim.on_camera, Sim.started, Sim.fresh.
  apply reach_exec. apply (@reach_init Sim.mac_one_camera 0 0%nat).
  vm_compute. reflexivity.
Defined.

Lemma C9_running_implies_handle_witness :
  reachable Sim.on_camera
  /\ is_running (self Sim.on_camera) = true
  /\ exists c, cap (self Sim.on_camera) = Some c.
Proof.
  assert (Hrun : is_running (self Sim.on_camera) = true)
    by (vm_compute; reflexivity).
  split; [exact on_camera_reachable |]. split; [exact Hrun |].
  destruct (C9_running_implies_handle on_camera_reachable Hrun)
    as (c & Hc & _).
  exists c. exact Hc.
Defined.

Lemma C10_callback_exception_escapes_witness :
  frame_callback (self Sim.on_camera_raising)
  = Some (Sim.raising_callback (L := Sim.mac_one_camera))
  /\ snd (read Sim.on_camera_raising)
     = inl (OtherException "RuntimeError" "callback failed")
  /\ _current_frame (self Sim.on_camera_raising) = None
  /\ _current_frame (self (fst (read Sim.on_camera_raising)))
     = Some Sim.pixel.
Proof.
  assert (Hrun : is_running (self Sim.on_camera_raising) = true)
    by (vm_compute; reflexivity).
  assert (Hcap : cap (self Sim.on_camera_raising)
                 = Some (Sim.live_capture
                           [(true, Some Sim.pixel); (false, None)]))
    by (vm_compute; reflexivity).
  assert (Hok : cap_read (Sim.live_capture
                            [(true, Some Sim.pixel); (false, None)])
                = inr (Sim.live_capture [(false, None)],
                       (true, Some Sim.pixel)))
    by (vm_compute; reflexivity).
  assert (Hcb : frame_callback (self Sim.on_camera_raising)
                = Some (Sim.raising_callback (L := Sim.mac_one_camera)))
    by (vm_compute; reflexivity).
  assert (Htruth : cb_truth (Sim.raising_callback (L := Sim.mac_one_camera))
                     (world Sim.on_camera_raising) = true)
    by (vm_compute; reflexivity).
  assert (Hraise : cb_call (Sim.raising_callback (L := Sim.mac_one_camera))
                     (Some Sim.pixel) (world Sim.on_camera_raising)
                   = (world Sim.on_camera_raising,
                      inl (OtherException "RuntimeError" "callback failed")))
    by (vm_compute; reflexivity).
  destruct (C10_callback_exception_escapes _ Hrun Hcap Hok Hcb Htruth
              Hraise)
    as (Hread & Hframe).
  split; [exact Hcb |]. split; [now rewrite Hread |].
  split; [vm_compute; reflexivity | exact Hframe].
Defined.

(** * Further properties of the module *)

Section Extras.

Context {L : CaptureLib}.

Implicit Types (s : State) (c : Cap).

(** ** The probe loop *)

Lemma probe_loop_app_fail pre rest : forall s,
  all_probes_fail pre (world s) = true ->
  probe_loop (pre ++ rest) s = probe_loop rest (fst (probe_loop pre s)).
Proof.
  induction pre as [| [dev_id backend] pre IH]; intros s Hall;
    [reflexivity |].
  cbn [all_probes_fail] in Hall. cbn [app]. rewrite !probe_loop_cons.
  destruct (cv2_VideoCapture dev_id backend (world s))
    as [w' [e | h]] eqn:E;
    apply andb_true_iff in Hall; destruct Hall as [Hh Hrest].
  - rewrite (probe_raises _ _ _ E). apply IH. exact Hrest.
  - apply negb_true_iff in Hh.
    rewrite (probe_not_opened _ _ _ E Hh). apply IH. exact Hrest.
Qed.

Lemma probe_loop_first_open pre rest dev_id backend s w' h :
  all_probes_fail pre (world s) = true ->
  cv2_VideoCapture dev_id backend (world (fst (probe_loop pre s)))
  = (w', inr h) ->
  vc_isOpened h = true ->
  probe_loop (pre ++ (dev_id, backend) :: rest) s
  = (mkState (with_cap (Some (Real h)) (self s)) w'
       (trace (fst (probe_loop pre s))
        ++ [EvVideoCapture dev_id backend; EvIsOpened (Real h)]),
     inr tt).
Proof.
  intros Hpre Hopen Hopened.
  rewrite (probe_loop_app_fail _ _ s Hpre), probe_loop_cons.
  rewrite (probe_opened _ _ _ Hopen Hopened).
  destruct (probe_loop_returns pre s) as (s1 & E & [_ U]).
  rewrite E. cbn [fst]. rewrite U. now destruct (self s).
Qed.

(** X1.  The loop stops at the first pair that opens: when the pairs before
    it all fail and its constructor returns an opened capture, that capture
    is left in [self.cap], the last two calls are its construction and its
    [isOpened], and the pairs after it are never tried. *)
Theorem X1_first_open_wins (pre rest : list (Z * Backend)) (dev_id : Z)
    (backend : Backend) s (w' : World) (h : Handle)
  (Hpre : all_probes_fail pre (world s) = true)
  (Hopen : cv2_VideoCapture dev_id backend (world (fst (probe_loop pre s)))
           = (w', inr h))
  (Hopened : vc_isOpened h = true) :
  probe_loop (pre ++ (dev_id, backend) :: rest) s
  = (mkState (with_cap (Some (Real h)) (self s)) w'
       (trace (fst (probe_loop pre s))
        ++ [EvVideoCapture dev_id backend; EvIsOpened (Real h)]),
     inr tt)
  /\ constructor_calls (trace (fst (probe_loop
                                     (pre ++ (dev_id, backend) :: rest) s)))
     = S (constructor_calls (trace (fst (probe_loop pre s)))).
Proof.
  rewrite (@probe_loop_first_open pre rest dev_id backend s w' h
             Hpre Hopen Hopened).
  split; [reflexivity |]. cbn [fst trace].
  unfold constructor_calls. rewrite filter_app, length_app. cbn. lia.
Qed.

Lemma constructor_calls_app t1 t2 :
  constructor_calls (t1 ++ t2)
  = (constructor_calls t1 + constructor_calls t2)%nat.
Proof. unfold constructor_calls. now rewrite filter_app, length_app. Qed.

(** X2.  What the loop calls: it extends the trace by at most one
    constructor call per pair, exactly one per pair when every probe fails;
    it never releases an object that reported opened, and never calls the
    callback. *)
Theorem X2_probe_loop_calls (methods : list (Z * Backend)) s :
  exists t,
    trace (fst (probe_loop methods s)) = (trace s ++ t)%list
    /\ (constructor_calls t <= List.length methods)%nat
    /\ forallb (fun e => negb (releases_opened e)) t = true
    /\ callback_calls t = 0%nat
    /\ (all_probes_fail methods (world s) = true ->
        constructor_calls t = List.length methods).
Proof.
  revert s. induction methods as [| [dev_id backend] rest IH]; intros s.
  - exists []. cbn. rewrite app_nil_r. repeat split; auto.
  - rewrite probe_loop_cons.
    destruct (cv2_VideoCapture dev_id backend (world s))
      as [w' [e | h]] eqn:E.
    + rewrite (probe_raises _ _ _ E).
      match goal with |- context [probe_loop rest ?s1] =>
        destruct (IH s1) as (t & Ht & Hn & Hrel & Hcb & Hall) end.
      exists (EvVideoCapture dev_id backend :: t).
      rewrite Ht. cbn [trace world]. rewrite <- app_assoc.
      split; [reflexivity |].
      change (EvVideoCapture dev_id backend :: t)
        with ([EvVideoCapture dev_id backend] ++ t)%list.
      rewrite constructor_calls_app, callback_calls_app, forallb_app.
      cbn. rewrite Hrel, Hcb.
      split; [lia |]. split; [reflexivity |]. split; [reflexivity |].
      rewrite E. cbn. intros H. now rewrite (Hall H).
    + destruct (vc_isOpened h) eqn:Hop.
      * rewrite (probe_opened _ _ _ E Hop).
        exists [EvVideoCapture dev_id backend; EvIsOpened (Real h)].
        cbn. split; [reflexivity |]. split; [lia |].
        split; [reflexivity |]. split; [reflexivity |].
        rewrite E, Hop. cbn. discriminate.
      * rewrite (probe_not_opened _ _ _ E Hop).
        match goal with |- context [probe_loop rest ?s1] =>
          destruct (IH s1) as (t & Ht & Hn & Hrel & Hcb & Hall) end.
        exists ([EvVideoCapture dev_id backend; EvIsOpened (Real h);
                 EvRelease (Real h)] ++ t)%list.
        rewrite Ht. cbn [trace world]. rewrite <- app_assoc.
        split; [reflexivity |].
        rewrite constructor_calls_app, callback_calls_app, forallb_app.
        cbn. rewrite Hop, Hrel, Hcb. cbn.
        split; [lia |]. split; [reflexivity |]. split; [reflexivity |].
        rewrite E, Hop. cbn. intros H. now rewrite (Hall H).
Qed.

(** ** [start] after the loop *)

Lemma start_after_loop width height fps s s1 :
  probe_loop (capture_methods platform_system (device_index (self s))) s
  = (s1, inr tt) ->
  cap_update (self s) (self s1) ->
  start width height fps s
  = (mkState
       (with_is_running true
          (with_cap
             (Some (configured (chosen_cap (cap (self s1)) width height)
                      width height fps))
             (self s)))
       (world s1)
       (trace s1 ++ opened_check (cap (self s1))
        ++ configure_events (chosen_cap (cap (self s1)) width height)
             width height fps),
     inr true).
Proof.
  intros E [_ U]. unfold start, try_except.
  unfold bind at 1. unfold get_self at 1. cbn beta iota.
  unfold bind at 1. rewrite E.
  destruct s1 as [o1 w1 t1]. cbn [self world trace] in *.
  unfold bind at 1.
  assert (Hnc : no_camera (mkState o1 w1 t1)
                = (mkState o1 w1 (t1 ++ opened_check (cap o1)),
                   inr (closed (cap o1)))).
  { unfold no_camera, self_cap_isOpened, bind, get_self, emit, ret. cbn.
    destruct (cap o1) as [c |] eqn:Hc; cbn; rewrite ?Hc; cbn;
      rewrite ?app_nil_r; reflexivity. }
  rewrite Hnc.
  set (c0 := chosen_cap (cap o1) width height).
  set (t2 := (t1 ++ opened_check (cap o1))%list).
  assert (Hinst : exists o2,
    (if closed (cap o1)
     then modify_self
            (with_cap (Some (Dummy (DummyCamera.init width height))))
     else ret tt) (mkState o1 w1 t2) = (mkState o2 w1 t2, inr tt)
    /\ cap o2 = Some c0 /\ o2 = with_cap (Some c0) (self s)).
  { subst c0. unfold chosen_cap, closed.
    destruct (cap o1) as [c |] eqn:Hc; cbn.
    - destruct (cap_isOpened c) eqn:Ho; cbn.
      + exists o1. split; [reflexivity | split; [exact Hc | exact U]].
      + eexists. unfold modify_self. cbn.
        split; [reflexivity | split; [reflexivity |]].
        rewrite U. now destruct (self s).
    - eexists. unfold modify_self. cbn.
      split; [reflexivity | split; [reflexivity |]].
      rewrite U. now destruct (self s). }
  destruct Hinst as (o2 & E2 & Hc2 & Ho2).
  unfold bind at 1. rewrite E2.
  unfold bind at 1. rewrite (self_cap_set_some _ _ _ _ _ Hc2).
  unfold bind at 1. erewrite self_cap_set_some by reflexivity.
  unfold bind at 1. erewrite self_cap_set_some by reflexivity.
  unfold bind, modify_self, ret. cbn [self world trace].
  f_equal. f_equal.
  - rewrite Ho2. unfold configured. now destruct (self s).
  - subst t2. unfold configure_events. rewrite <- !app_assoc. reflexivity.
Qed.


Lemma probe_loop_all_raise methods : forall s,
  all_probes_raise methods (world s) = true ->
  self (fst (probe_loop methods s)) = self s
  /\ snd (probe_loop methods s) = inr tt.
Proof.
  induction methods as [| [dev_id backend] rest IH]; intros s Hall.
  - split; reflexivity.
  - cbn [all_probes_raise] in Hall. rewrite probe_loop_cons.
    destruct (cv2_VideoCapture dev_id backend (world s))
      as [w' [e | h]] eqn:E; [| discriminate].
    rewrite (probe_raises _ _ _ E).
    match goal with |- context [probe_loop rest ?s1] =>
      destruct (IH s1 Hall) as (Hs & Hr) end.
    split; assumption.
Qed.

(** X4.  A second [start] on a capturer whose object is still opened, on a
    host where every constructor call raises, keeps that object: no
    [DummyCamera] is built, and a [DummyCamera] held from before keeps the
    size it was built with, whatever size is asked for now. *)
Theorem X4_restart_keeps_opened_handle (width height fps : Z) s c
  (Hraise : all_probes_raise
              (capture_methods platform_system (device_index (self s)))
              (world s) = true)
  (Hcap : cap (self s) = Some c)
  (Hopened : cap_isOpened c = true) :
  snd (start width height fps s) = inr true
  /\ cap (self (fst (start width height fps s)))
     = Some (configured c width height fps)
  /\ (forall d, c = Dummy d ->
      cap (self (fst (start width height fps s))) = Some (Dummy d)).
Proof.
  destruct (probe_loop_returns
              (capture_methods platform_system (device_index (self s))) s)
    as (s1 & E1 & U).
  pose proof (@start_after_loop width height fps s s1 E1 U) as E.
  destruct (probe_loop_all_raise _ s Hraise) as (Hs & _).
  rewrite E1 in Hs. cbn [fst] in Hs.
  rewrite Hs, Hcap in E. rewrite E. cbn [fst snd self cap with_cap
    with_is_running].
  unfold chosen_cap. rewrite Hopened.
  split; [reflexivity |]. split; [reflexivity |].
  intros d ->. reflexivity.
Qed.

(** ** [set_frame_callback] and [read] *)

(** X5.  The callback is replaced, not added to: after two calls of
    [set_frame_callback] only the second object is registered, and nothing
    else of the capturer, the world or the trace is touched by the
    registration.  On a [read] whose handle read succeeds the first object
    is not called at all; the second is called once, after the handle's
    read, when its truth value is true, and is passed over when it is
    false, in which case [read] returns [(True, frame)] with the handle's
    read as its only call. *)
Theorem X5_last_callback_wins s c c' (frame : option ndarray)
    (cb1 cb2 : Callback)
  (Hrun : is_running (self s) = true)
  (Hcap : cap (self s) = Some c)
  (Hok : cap_read c = inr (c', (true, frame))) :
  let s2 := fst (set_frame_callback cb2 (fst (set_frame_callback cb1 s))) in
  s2 = mkState (with_frame_callback (Some cb2) (self s)) (world s) (trace s)
  /\ (cb_truth cb2 (world s) = true ->
      trace (fst (read s2))
      = (trace s ++ [EvRead c; EvCallback cb2 frame])%list
      /\ world (fst (read s2)) = fst (cb_call cb2 frame (world s))
      /\ snd (read s2)
         = match snd (cb_call cb2 frame (world s)) with
           | inl e => inl e
           | inr _ => inr (true, frame)
           end)
  /\ (cb_truth cb2 (world s) = false ->
      trace (fst (read s2)) = (trace s ++ [EvRead c])%list
      /\ world (fst (read s2)) = world s
      /\ snd (read s2) = inr (true, frame)).
Proof.
  intros s2.
  assert (E2 : s2 = mkState (with_frame_callback (Some cb2) (self s))
                      (world s) (trace s)).
  { subst s2. unfold set_frame_callback, modify_self. cbn.
    now destruct (self s). }
  split; [exact E2 |].
  assert (Hr2 : is_running (self s2) = true) by (rewrite E2; exact Hrun).
  assert (Hc2 : cap (self s2) = Some c) by (rewrite E2; exact Hcap).
  assert (Hcb2 : frame_callback (self s2) = Some cb2)
    by (rewrite E2; reflexivity).
  assert (Hw2 : world s2 = world s) by (rewrite E2; reflexivity).
  split; intros Ht; rewrite <- Hw2 in Ht.
  - rewrite (read_callback _ Hr2 Hc2 Hok Hcb2 Ht).
    rewrite E2. cbn [fst snd self world trace]. repeat split.
  - rewrite (read_callback_falsy _ Hr2 Hc2 Hok Hcb2 Ht).
    rewrite E2. cbn [fst snd self world trace]. repeat split.
Qed.

(** X6.  With no callback registered, a successful [read] hands the
    handle's frame through: it returns [(True, frame)], stores the frame in
    [_current_frame], and its only call is the handle's [read]; the world is
    not touched. *)
Theorem X6_read_without_callback s c c' (frame : option ndarray)
  (Hrun : is_running (self s) = true)
  (Hcap : cap (self s) = Some c)
  (Hok : cap_read c = inr (c', (true, frame)))
  (Hnone : frame_callback (self s) = None) :
  read s
  = (mkState (with_current_frame frame (with_cap (Some c') (self s)))
       (world s) (trace s ++ [EvRead c]),
     inr (true, frame))
  /\ _current_frame (self (fst (read s))) = frame
  /\ callback_calls (trace (fst (read s))) = callback_calls (trace s).
Proof.
  rewrite (read_no_callback _ Hrun Hcap Hok Hnone). cbn [fst self trace].
  rewrite callback_calls_app. cbn.
  split; [reflexivity |]. split; [reflexivity | lia].
Qed.

Lemma read_keeps_fields s :
  is_running (self (fst (read s))) = is_running (self s)
  /\ is_None (cap (self (fst (read s)))) = is_None (cap (self s))
  /\ frame_callback (self (fst (read s))) = frame_callback (self s)
  /\ device_index (self (fst (read s))) = device_index (self s)
  /\ _frame_ready (self (fst (read s))) = _frame_ready (self s)
  /\ graph (self (fst (read s))) = graph (self s).
Proof.
  destruct (is_running (self s)) eqn:Hr.
  2:{ rewrite read_guard by (left; exact Hr). cbn. auto 7. }
  destruct (cap (self s)) as [c |] eqn:Hc.
  2:{ rewrite read_guard by (right; exact Hc). cbn. rewrite Hc. auto 7. }
  destruct (cap_read c) as [e | [c' [[|] frame]]] eqn:He.
  - rewrite (read_handle_raised _ Hr Hc He). cbn. rewrite Hr, Hc. auto 7.
  - destruct (frame_callback (self s)) as [cb |] eqn:Hcb.
    + destruct (cb_truth cb (world s)) eqn:Ht.
      * rewrite (read_callback _ Hr Hc He Hcb Ht). cbn. auto 7.
      * rewrite (read_callback_falsy _ Hr Hc He Hcb Ht). cbn. auto 7.
    + rewrite (read_no_callback _ Hr Hc He Hcb). cbn. auto 7.
  - rewrite (read_handle_failed _ Hr Hc He). cbn. auto 7.
Qed.

(** X7.  Whatever a [read] does (return a frame, report failure, or raise
    from the handle or the callback), it leaves [is_running], the callback,
    [device_index], and whether a handle is held, as they were: a failed or
    raising read does not stop the capturer. *)
Theorem X7_read_never_stops s :
  is_running (self (fst (read s))) = is_running (self s)
  /\ is_None (cap (self (fst (read s)))) = is_None (cap (self s))
  /\ frame_callback (self (fst (read s))) = frame_callback (self s)
  /\ device_index (self (fst (read s))) = device_index (self s).
Proof.
  destruct (read_keeps_fields s) as (H1 & H2 & H3 & H4 & _).
  auto.
Qed.

(** X8.  A [DummyCamera] with a negative width or height cannot deliver:
    its [read] raises [ValueError] (with the message "negative dimensions
    are not allowed" whenever the sizes convert to [npy_intp]), and so does
    the capturer's [read] on it, every time, without storing a frame,
    calling the callback or changing any attribute. *)
Theorem X8_negative_size_dummy_raises (d : DummyCamera.t) s
  (Hneg : DummyCamera.width d < 0 \/ DummyCamera.height d < 0)
  (Hrun : is_running (self s) = true)
  (Hcap : cap (self s) = Some (Dummy d)) :
  DummyCamera.read d = inl (negative_size_error d)
  /\ (fits_intp (DummyCamera.height d) && fits_intp (DummyCamera.width d)
      && fits_intp 3 = true ->
      negative_size_error d
      = ValueError "negative dimensions are not allowed")
  /\ forall n : nat,
       read (after_reads n s)
       = (mkState (self s) (world s)
            (trace (after_reads n s) ++ [EvRead (Dummy d)]),
          inl (negative_size_error d)).
Proof.
  assert (Hd : DummyCamera.read d = inl (negative_size_error d)).
  { unfold DummyCamera.read, np_zeros, negative_size_error.
    destruct (fits_intp (DummyCamera.height d)
              && fits_intp (DummyCamera.width d) && fits_intp 3) eqn:Hf;
      cbn [negb]; [| reflexivity].
    apply andb_true_iff in Hf. destruct Hf as [Hf _].
    apply andb_true_iff in Hf. destruct Hf as [Hfh _].
    unfold fits_intp in Hfh. apply andb_true_iff in Hfh.
    destruct Hfh as [_ Hmax]. apply Z.leb_le in Hmax.
    cbn [check_dims].
    destruct (Z.eqb_spec (DummyCamera.height d) 0) as [Hz | Hz].
    - assert (Hw : DummyCamera.width d < 0) by lia.
      replace (DummyCamera.width d =? 0) with false
        by (symmetry; apply Z.eqb_neq; lia).
      replace (DummyCamera.width d <? 0) with true
        by (symmetry; apply Z.ltb_lt; lia).
      reflexivity.
    - destruct (Z.ltb_spec (DummyCamera.height d) 0) as [Hlt | Hge];
        [reflexivity |].
      assert (Hw : DummyCamera.width d < 0) by lia.
      replace (NPY_MAX_INTP <? 1 * DummyCamera.height d) with false
        by (symmetry; apply Z.ltb_ge; lia).
      replace (DummyCamera.width d =? 0) with false
        by (symmetry; apply Z.eqb_neq; lia).
      replace (DummyCamera.width d <? 0) with true
        by (symmetry; apply Z.ltb_lt; lia).
      reflexivity. }
  split; [exact Hd |].
  split; [intros Hf; unfold negative_size_error; now rewrite Hf |].
  assert (Hc : cap_read (Dummy d) = inl (negative_size_error d)).
  { unfold cap_read. now rewrite Hd. }
  assert (Hstep : forall s0, is_running (self s0) = true ->
            cap (self s0) = Some (Dummy d) ->
            read s0 = (mkState (self s0) (world s0)
                         (trace s0 ++ [EvRead (Dummy d)]),
                       inl (negative_size_error d)))
    by (intros s0 H1 H2; exact (read_handle_raised _ H1 H2 Hc)).
  intros n. revert s Hrun Hcap.
  induction n as [| n IH]; intros s Hrun Hcap.
  - apply Hstep; assumption.
  - cbn [after_reads]. rewrite (Hstep s Hrun Hcap). cbn [fst].
    rewrite IH by assumption. reflexivity.
Qed.

(** ** [DummyCamera] on its own *)

(** X9.  [DummyCamera.read] does not look at [is_open]: after any number of
    [release] calls [isOpened] answers [False], yet [read] answers exactly
    as it did before them, whatever the size; when numpy can build the
    frame (sizes non-negative, byte count within [npy_intp], memory to be
    had) that answer is [(True, black frame)], and otherwise, and only
    otherwise, it is an exception, a [ValueError] or numpy's memory
    error. *)
Theorem X9_released_dummy_still_reads (n : nat) (d : DummyCamera.t) :
  DummyCamera.isOpened (released_times (S n) d) = false
  /\ DummyCamera.read (released_times n d) = DummyCamera.read d
  /\ (frame_fits (DummyCamera.width d) (DummyCamera.height d) ->
      DummyCamera.read (released_times n d)
      = inr (true,
             black_frame (DummyCamera.width d) (DummyCamera.height d)))
  /\ (forall r, DummyCamera.read (released_times n d) = inr r ->
      frame_fits (DummyCamera.width d) (DummyCamera.height d))
  /\ (forall e, DummyCamera.read (released_times n d) = inl e ->
      (exists msg, e = ValueError msg)
      \/ e = ArrayMemoryError (DummyCamera.height d, DummyCamera.width d, 3)).
Proof.
  assert (Hread : forall k d0,
            DummyCamera.read (released_times k d0) = DummyCamera.read d0).
  { induction k as [| k IH]; intros d0; [reflexivity |].
    cbn [released_times]. rewrite IH. reflexivity. }
  assert (Hopen : forall k d0,
            DummyCamera.isOpened (released_times (S k) d0) = false).
  { induction k as [| k IH]; intros d0; [reflexivity |].
    change (released_times (S (S k)) d0)
      with (released_times (S k) (DummyCamera.release d0)).
    apply IH. }
  split; [apply Hopen |]. split; [apply Hread |].
  rewrite Hread. unfold DummyCamera.read.
  split; [| split].
  - intros Hfit. rewrite (np_zeros_black Hfit). reflexivity.
  - intros r.
    destruct (np_zeros _) as [e' | frame] eqn:Ez; [discriminate |].
    intros _. exact (np_zeros_returns_fits _ _ Ez).
  - intros e.
    destruct (np_zeros _) as [e' |] eqn:Ez; [| discriminate].
    intros H. inversion H; subst. exact (np_zeros_error _ Ez).
Qed.

(** ** A new capturer, and what no method touches *)

(** X10.  A capturer that [__init__] returned, on any platform and in any
    later world, is idle: it is not running, holds no handle, callback or
    frame, keeps the index it was given; its [read] returns
    [(False, None)] and its [release] returns, both without any call and
    without changing anything. *)
Theorem X10_new_capturer_is_idle (idx : Z) (w w' : World)
    (o : VideoCapturer)
  (Hinit : init idx w = inr o) :
  device_index o = idx
  /\ is_running o = false /\ cap o = None
  /\ frame_callback o = None /\ _current_frame o = None
  /\ read (mkState o w' []) = (mkState o w' [], inr (false, None))
  /\ release (mkState o w' []) = (mkState o w' [], inr tt).
Proof.
  assert (Ho : o = mkVideoCapturer idx None None false false None (graph o)).
  { unfold init in Hinit.
    destruct (platform_system =? "Windows")%string;
      [destruct (idx >=? _) |]; inversion Hinit; reflexivity. }
  rewrite Ho. cbn [device_index is_running cap frame_callback _current_frame].
  do 5 (split; [reflexivity |]).
  split; [apply read_guard | apply release_noop]; now left.
Qed.

Lemma exec_keeps_fields op s :
  device_index (self (exec op s)) = device_index (self s)
  /\ _frame_ready (self (exec op s)) = _frame_ready (self s)
  /\ graph (self (exec op s)) = graph (self s).
Proof.
  destruct op as [width height fps | | | cb]; cbn [exec].
  - destruct (start_returns width height fps s)
      as (s1 & w' & t' & _ & _ & E).
    rewrite E. cbn. auto.
  - destruct (read_keeps_fields s) as (_ & _ & _ & H1 & H2 & H3). auto.
  - destruct (is_running (self s)) eqn:Hr.
    2:{ rewrite release_noop by (left; exact Hr). auto. }
    destruct (cap (self s)) as [c |] eqn:Hc.
    + rewrite (release_running _ Hr Hc). cbn. auto.
    + rewrite release_noop by (right; exact Hc). auto.
  - cbn. auto.
Qed.

(** X11.  No public method assigns [device_index], the ready event or
    [graph]: every operation leaves them as they were, so in every state
    reached from a constructed capturer the ready event is still unset. *)
Theorem X11_untouched_attributes :
  (forall op s,
      device_index (self (exec op s)) = device_index (self s)
      /\ _frame_ready (self (exec op s)) = _frame_ready (self s)
      /\ graph (self (exec op s)) = graph (self s))
  /\ (forall s, reachable s -> _frame_ready (self s) = false).
Proof.
  split; [apply exec_keeps_fields |].
  induction 1 as [idx w o Hinit | s op _ IH | s w' _ IH].
  - unfold init in Hinit.
    destruct (platform_system =? "Windows")%string;
      [destruct (idx >=? _) |]; inversion Hinit; reflexivity.
  - destruct (exec_keeps_fields op s) as (_ & H & _). now rewrite H.
  - exact IH.
Qed.

(** ** Reading from a real capture *)

Lemma real_read_step h s :
  is_running (self s) = true ->
  cap (self s) = Some (Real h) ->
  callback_returns (self s) ->
  snd (read s) = inr (read_outcome (snd (vc_read h)))
  /\ is_running (self (fst (read s))) = true
  /\ cap (self (fst (read s))) = Some (Real (fst (vc_read h)))
  /\ callback_returns (self (fst (read s))).
Proof.
  intros Hr Hc Hcb.
  destruct (vc_read h) as [h' [[|] frame]] eqn:Ev.
  - assert (He : cap_read (Real h) = inr (Real h', (true, frame)))
      by (unfold cap_read; now rewrite Ev).
    destruct (frame_callback (self s)) as [cb |] eqn:Hf.
    + destruct (cb_truth cb (world s)) eqn:Ht.
      * rewrite (read_callback _ Hr Hc He Hf Ht). cbn [fst snd self].
        rewrite (Hcb cb Hf _ _ Ht).
        split; [reflexivity | split; [exact Hr | split; [reflexivity |]]].
        intros cb' Hcb'. cbn in Hcb'. apply Hcb. congruence.
      * rewrite (read_callback_falsy _ Hr Hc He Hf Ht). cbn [fst snd self].
        split; [reflexivity | split; [exact Hr | split; [reflexivity |]]].
        intros cb' Hcb'. cbn in Hcb'. apply Hcb. congruence.
    + rewrite (read_no_callback _ Hr Hc He Hf). cbn [fst snd self].
      split; [reflexivity | split; [exact Hr | split; [reflexivity |]]].
      intros cb' Hcb'. cbn in Hcb'. congruence.
  - assert (He : cap_read (Real h) = inr (Real h', (false, frame)))
      by (unfold cap_read; now rewrite Ev).
    rewrite (read_handle_failed _ Hr Hc He). cbn [fst snd self].
    split; [reflexivity | split; [exact Hr | split; [reflexivity |]]].
    intros cb' Hcb'. cbn in Hcb'. apply Hcb. exact Hcb'.
Qed.

(** X12.  On a real capture [read] is a pass-through that can be retried:
    provided the registered callback (if any) returns normally, the read
    after [n] earlier reads returns what the capture's own [n+1]-th read
    answers (its frame on success, [(False, None)] on failure), and the
    capturer is still running on that capture, however many of the earlier
    reads failed. *)
Theorem X12_reads_follow_the_capture (n : nat) (h : Handle) s
  (Hrun : is_running (self s) = true)
  (Hcap : cap (self s) = Some (Real h))
  (Hcb : callback_returns (self s)) :
  snd (read (after_reads n s))
  = inr (read_outcome (snd (vc_read (handle_after n h))))
  /\ cap (self (after_reads n s)) = Some (Real (handle_after n h))
  /\ is_running (self (after_reads n s)) = true.
Proof.
  revert h s Hrun Hcap Hcb.
  induction n as [| n IH]; intros h s Hrun Hcap Hcb;
    destruct (real_read_step s Hrun Hcap Hcb) as (Hres & Hr' & Hc' & Hcb').
  - cbn [after_reads handle_after]. auto.
  - cbn [after_reads handle_after]. apply IH; assumption.
Qed.

(** ** Whole runs *)



End Extras.

(** * The further properties on the simulated hosts *)

Lemma X1_first_open_wins_witness :
  all_probes_fail (L := Sim.mac_one_camera)
    [(1, CAP_ANY); (1, CAP_AVFOUNDATION)] 0%nat = true
  /\ probe_loop
       ([(1, CAP_ANY); (1, CAP_AVFOUNDATION)]
        ++ (0, CAP_ANY) :: [(0, CAP_AVFOUNDATION)])
       (Sim.fresh (L := Sim.mac_one_camera) 1 0%nat)
     = (mkState
          (with_cap
             (Some (Sim.live_capture [(true, Some Sim.pixel); (false, None)]))
             (self (Sim.fresh (L := Sim.mac_one_camera) 1 0%nat)))
          3%nat
          (trace (fst (probe_loop [(1, CAP_ANY); (1, CAP_AVFOUNDATION)]
                         (Sim.fresh (L := Sim.mac_one_camera) 1 0%nat)))
           ++ [EvVideoCapture 0 CAP_ANY;
               EvIsOpened
                 (Sim.live_capture [(true, Some Sim.pixel); (false, None)])]),
        inr tt).
Proof.
  assert (Hpre : all_probes_fail (L := Sim.mac_one_camera)
                   [(1, CAP_ANY); (1, CAP_AVFOUNDATION)] 0%nat = true)
    by (vm_compute; reflexivity).
  split; [exact Hpre |].
  refine (proj1 (@X1_first_open_wins Sim.mac_one_camera
           [(1, CAP_ANY); (1, CAP_AVFOUNDATION)] [(0, CAP_AVFOUNDATION)]
           0 CAP_ANY (Sim.fresh (L := Sim.mac_one_camera) 1 0%nat) 3%nat
           (Sim.mkSim true [(true, Some Sim.pixel); (false, None)]) Hpre
           _ _));
    vm_compute; reflexivity.
Defined.

Lemma X2_probe_loop_calls_witness :
  exists t,
    trace (fst (probe_loop (capture_methods "Darwin" 1)
                  (Sim.fresh (L := Sim.mac_no_camera) 1 0%nat)))
    = (trace (Sim.fresh (L := Sim.mac_no_camera) 1 0%nat) ++ t)%list
    /\ constructor_calls t = 4%nat.
Proof.
  destruct (@X2_probe_loop_calls Sim.mac_no_camera
              (capture_methods "Darwin" 1)
              (Sim.fresh (L := Sim.mac_no_camera) 1 0%nat))
    as (t & Ht & _ & _ & _ & Hall).
  exists t. split; [exact Ht |].
  apply Hall. vm_compute. reflexivity.
Defined.

Lemma X4_restart_keeps_opened_handle_witness :
  cap (self SimMore.on_dummy) = Some (Dummy (DummyCamera.init 3 2))
  /\ cap (self (fst (start 5 4 30 SimMore.on_dummy)))
     = Some (Dummy (DummyCamera.init 3 2)).
Proof.
  assert (Hcap : cap (self SimMore.on_dummy)
                 = Some (Dummy (DummyCamera.init 3 2)))
    by (vm_compute; reflexivity).
  assert (Hraise : all_probes_raise (L := SimMore.mac_broken)
                     (capture_methods (@platform_system SimMore.mac_broken)
                        (device_index (self SimMore.on_dummy)))
                     (world SimMore.on_dummy) = true)
    by (vm_compute; reflexivity).
  split; [exact Hcap |].
  destruct (@X4_restart_keeps_opened_handle SimMore.mac_broken 5 4 30
              SimMore.on_dummy (Dummy (DummyCamera.init 3 2))
              Hraise Hcap eq_refl) as (_ & _ & Hdummy).
  exact (Hdummy _ eq_refl).
Defined.

Lemma X5_last_callback_wins_witness :
  snd (read (fst (set_frame_callback
                    (Sim.counting_callback (L := Sim.mac_one_camera) S)
                    (fst (set_frame_callback
                            (Sim.raising_callback (L := Sim.mac_one_camera))
                            Sim.on_camera)))))
  = inr (true, Some Sim.pixel)
  /\ world (fst (read (fst (set_frame_callback
                    (Sim.falsy_callback (L := Sim.mac_one_camera) S)
                    (fst (set_frame_callback
                            (Sim.raising_callback (L := Sim.mac_one_camera))
                            Sim.on_camera))))))
     = world Sim.on_camera.
Proof.
  assert (Hrun : is_running (self Sim.on_camera) = true)
    by (vm_compute; reflexivity).
  assert (Hcap : cap (self Sim.on_camera)
                 = Some (Sim.live_capture
                           [(true, Some Sim.pixel); (false, None)]))
    by (vm_compute; reflexivity).
  assert (Hok : cap_read (Sim.live_capture
                            [(true, Some Sim.pixel); (false, None)])
                = inr (Sim.live_capture [(false, None)],
                       (true, Some Sim.pixel)))
    by (vm_compute; reflexivity).
  split.
  - destruct (@X5_last_callback_wins Sim.mac_one_camera Sim.on_camera _ _ _
                (Sim.raising_callback (L := Sim.mac_one_camera))
                (Sim.counting_callback (L := Sim.mac_one_camera) S)
                Hrun Hcap Hok) as (_ & Htrue & _).
    destruct (Htrue eq_refl) as (_ & _ & Hres). exact Hres.
  - destruct (@X5_last_callback_wins Sim.mac_one_camera Sim.on_camera _ _ _
                (Sim.raising_callback (L := Sim.mac_one_camera))
                (Sim.falsy_callback (L := Sim.mac_one_camera) S)
                Hrun Hcap Hok) as (_ & _ & Hfalse).
    destruct (Hfalse eq_refl) as (_ & Hworld & _). exact Hworld.
Defined.

Lemma X6_read_without_callback_witness :
  snd (read Sim.on_camera) = inr (true, Some Sim.pixel)
  /\ _current_frame (self (fst (read Sim.on_camera))) = Some Sim.pixel.
Proof.
  assert (Hrun : is_running (self Sim.on_camera) = true)
    by (vm_compute; reflexivity).
  assert (Hcap : cap (self Sim.on_camera)
                 = Some (Sim.live_capture
                           [(true, Some Sim.pixel); (false, None)]))
    by (vm_compute; reflexivity).
  assert (Hok : cap_read (Sim.live_capture
                            [(true, Some Sim.pixel); (false, None)])
                = inr (Sim.live_capture [(false, None)],
                       (true, Some Sim.pixel)))
    by (vm_compute; reflexivity).
  assert (Hnone : frame_callback (self Sim.on_camera) = None)
    by (vm_compute; reflexivity).
  destruct (X6_read_without_callback _ Hrun Hcap Hok Hnone)
    as (Hread & Hframe & _).
  split; [now rewrite Hread | exact Hframe].
Defined.

Lemma X8_negative_size_dummy_raises_witness :
  snd (read (after_reads 3
               (fst (start (-1) 2 60
                       (Sim.fresh (L := Sim.mac_no_camera) 1 0%nat)))))
  = inl (ValueError "negative dimensions are not allowed").
Proof.
  assert (Hrun : is_running
                   (self (fst (start (-1) 2 60
                                 (Sim.fresh (L := Sim.mac_no_camera) 1 0%nat))))
                 = true)
    by (vm_compute; reflexivity).
  assert (Hcap : cap (self (fst (start (-1) 2 60
                                   (Sim.fresh (L := Sim.mac_no_camera)
                                      1 0%nat))))
                 = Some (Dummy (DummyCamera.init (-1) 2)))
    by (vm_compute; reflexivity).
  destruct (@X8_negative_size_dummy_raises Sim.mac_no_camera
              (DummyCamera.init (-1) 2) _ ltac:(left; cbn; lia) Hrun Hcap)
    as (_ & Hmsg & Hreads).
  rewrite (Hreads 3%nat). cbn [snd].
  rewrite Hmsg by (vm_compute; reflexivity). reflexivity.
Defined.

Lemma X9_released_dummy_still_reads_witness :
  frame_fits (L := Sim.mac_no_camera) 3 2
  /\ DummyCamera.isOpened (released_times 3 (DummyCamera.init 3 2)) = false
  /\ DummyCamera.read (L := Sim.mac_no_camera)
       (released_times 3 (DummyCamera.init 3 2))
     = inr (true, black_frame 3 2).
Proof.
  assert (Hfit : frame_fits (L := Sim.mac_no_camera) 3 2).
  { unfold frame_fits.
    split; [lia |]. split; [lia |].
    split; [vm_compute; discriminate | vm_compute; reflexivity]. }
  split; [exact Hfit |]. split.
  - destruct (@X9_released_dummy_still_reads Sim.mac_no_camera 2
                (DummyCamera.init 3 2)) as (Hclosed & _).
    exact Hclosed.
  - destruct (@X9_released_dummy_still_reads Sim.mac_no_camera 3
                (DummyCamera.init 3 2)) as (_ & _ & Hread & _).
    exact (Hread Hfit).
Defined.

(** A size whose byte count leaves [npy_intp], and a size beyond what the
    simulated host hands out: [start] returns [True] on the dummy and
    [read] raises, the first numpy's [ValueError], the second its memory
    error. *)
Example dummy_too_big :
  snd (start 4611686018427387904 0 60
         (Sim.fresh (L := Sim.mac_no_camera) 1 0%nat)) = inr true
  /\ snd (read (fst (start 4611686018427387904 0 60
                       (Sim.fresh (L := Sim.mac_no_camera) 1 0%nat))))
     = inl (ValueError
              ("array is too big; `arr.size * arr.dtype.itemsize` "
               ++ "is larger than the maximum possible size."))
  /\ snd (read (fst (start 100 100 60
                       (Sim.fresh (L := Sim.mac_no_camera) 1 0%nat))))
     = inl (ArrayMemoryError (100, 100, 3)).
Proof.
  split; [vm_compute; reflexivity |].
  split; vm_compute; reflexivity.
Qed.

Lemma X10_new_capturer_is_idle_witness :
  init (L := Sim.windows_two_devices) 1 0%nat
  = inr (mkVideoCapturer 1 None None false false None true)
  /\ snd (read (mkState (L := Sim.windows_two_devices)
                  (mkVideoCapturer 1 None None false false None true)
                  7%nat []))
     = inr (false, None).
Proof.
  assert (Hinit : init (L := Sim.windows_two_devices) 1 0%nat
                  = inr (mkVideoCapturer 1 None None false false None true))
    by (vm_compute; reflexivity).
  split; [exact Hinit |].
  destruct (@X10_new_capturer_is_idle Sim.windows_two_devices 1 0%nat 7%nat
              _ Hinit) as (_ & _ & _ & _ & _ & Hread & _).
  now rewrite Hread.
Defined.

Lemma X11_untouched_attributes_witness :
  _frame_ready (self Sim.on_camera) = false.
Proof.
  destruct (@X11_untouched_attributes Sim.mac_one_camera) as (_ & Hready).
  exact (Hready _ on_camera_reachable).
Defined.

Lemma X12_reads_follow_the_capture_witness :
  snd (read Sim.on_camera) = inr (true, Some Sim.pixel)
  /\ snd (read (after_reads 1 Sim.on_camera)) = inr (false, None)
  /\ is_running (self (after_reads 2 Sim.on_camera)) = true.
Proof.
  assert (Hrun : is_running (self Sim.on_camera) = true)
    by (vm_compute; reflexivity).
  assert (Hcap : cap (self Sim.on_camera)
                 = Some (Real (L := Sim.mac_one_camera)
                           (Sim.mkSim true
                              [(true, Some Sim.pixel); (false, None)])))
    by (vm_compute; reflexivity).
  assert (Hcb : callback_returns (self Sim.on_camera))
    by (intros cb H; vm_compute in H; discriminate H).
  destruct (@X12_reads_follow_the_capture Sim.mac_one_camera 0 _ _
              Hrun Hcap Hcb) as (H0 & _).
  destruct (@X12_reads_follow_the_capture Sim.mac_one_camera 1 _ _
              Hrun Hcap Hcb) as (H1 & _).
  destruct (@X12_reads_follow_the_capture Sim.mac_one_camera 2 _ _
              Hrun Hcap Hcb) as (_ & _ & H2).
  cbn [after_reads] in H0.
  split; [rewrite H0; vm_compute; reflexivity |].
  split; [rewrite H1; vm_compute; reflexivity | exact H2].
Defined.



